(** * portfolio-back: the database connection manager and its HTTP shell

    The repository has two entry points that wire the same Express
    application to MongoDB through mongoose:

    - [src/index.js], the long-running server ([LongRunning] below);
    - the Vercel function [api/index.js] ([Serverless] below).

    Both are embedded shallowly.  A handler is a program of the free monad
    [Prog] over the primitive operations the source performs (reading and
    writing [cachedConnection], [process.env], [mongoose.connection],
    [console], [mongoose.connect], [await], [app.listen], [process.exit]).
    [run] executes a program synchronously up to its first suspension, the
    way a JavaScript async function runs up to its first [await]; [step]
    is one turn of the event loop, driven by the environment (a call, the
    driver settling a promise, the driver emitting a connection event).

    mongoose, Express's router and the third-party middleware are not part
    of the repository: the driver is the environment of the event loop and
    the middleware are oracles collected in a record. *)

From stdpp Require Import base option list strings pretty gmap.
From Stdlib Require Import ZArith Lia.

Local Open Scope Z_scope.
Local Open Scope string_scope.
Local Open Scope list_scope.
Local Set Warnings "-register-all".

(** ** JavaScript values *)

Module Js.

Inductive value : Type :=
| VUndefined
| VNull
| VBool (b : bool)
| VNum (n : Z)
| VStr (s : string)
| VArr (items : list value)
| VObj (fields : list (string * value)).

(** An [Error] object, as far as the source looks at it. *)
Record Error : Type := MkError {
  name : string;
  message : string;
  stack : string
}.

(** ToBoolean. *)
Definition truthy (v : value) : bool :=
  match v with
  | VUndefined | VNull => false
  | VBool b => b
  | VNum n => negb (n =? 0)%Z
  | VStr s => negb (String.eqb s "")
  | VArr _ | VObj _ => true
  end.

(** [a || b] *)
Definition or (a b : value) : value := if truthy a then a else b.

(** Property read [o.k]; a missing property reads [undefined]. *)
Fixpoint assoc (k : string) (fields : list (string * value)) : value :=
  match fields with
  | [] => VUndefined
  | (k', v) :: rest => if String.eqb k k' then v else assoc k rest
  end.

Definition get (k : string) (o : value) : value :=
  match o with
  | VObj fields => assoc k fields
  | _ => VUndefined
  end.

(** [k in o], for own enumerable properties of an object literal. *)
Definition has (k : string) (o : value) : bool :=
  match o with
  | VObj fields => bool_decide (k ∈ fields.*1)
  | _ => false
  end.

(** ToString, as a template literal applies it. *)
Fixpoint show (v : value) : string :=
  match v with
  | VUndefined => "undefined"
  | VNull => "null"
  | VBool true => "true"
  | VBool false => "false"
  | VNum n => pretty n
  | VStr s => s
  | VArr items =>
      (fix join (l : list value) : string :=
         match l with
         | [] => ""
         | x :: rest =>
             let shown :=
               match x with
               | VUndefined | VNull => ""
               | _ => show x
               end in
             match rest with
             | [] => shown
             | _ :: _ => (shown ++ "," ++ join rest)%string
             end
         end) items
  | VObj _ => "[object Object]"
  end.

Definition of_option (o : option string) : value :=
  match o with
  | Some s => VStr s
  | None => VUndefined
  end.

End Js.

Import Js.

(** ** The mongoose side *)

Module Mongoose.

(** [mongoose.connection], as far as the source reads it. *)
Record Connection : Type := MkConnection {
  readyState : Z;
  host : value;
  name : value
}.

(** The options object passed to [mongoose.connect]. *)
Record ConnectOptions : Type := MkOptions {
  serverSelectionTimeoutMS : Z;
  socketTimeoutMS : Z;
  maxPoolSize : Z;
  minPoolSize : Z;
  maxIdleTimeMS : Z;
  connectTimeoutMS : Z;
  bufferCommands : option bool
}.

(** What [mongoose.connect] resolves to.  It is the mongoose module
    object; the model keeps its identity only, and [conn.connection] is
    [mongoose.connection]. *)
Definition Handle : Type := nat.

Definition Promise : Type := nat.

Bind Scope nat_scope with Handle Promise.

Inductive Settled : Type :=
| Fulfilled (conn : Handle)
| Rejected (e : Error).

Definition DISCONNECTED : Z := 0.
Definition CONNECTED : Z := 1.
Definition CONNECTING : Z := 2.
Definition DISCONNECTING : Z := 3.

End Mongoose.

Import Mongoose.

(** ** Programs *)

Inductive Stream : Type := Out | Err.

(** An argument of [console.log] / [console.error]. *)
Inductive LogArg : Type :=
| Text (s : string)
| Thrown (e : Error).

Inductive Prog (A : Type) : Type :=
| Ret (a : A)
| Throw (e : Error)
| GetCached (k : option Handle → Prog A)
| SetCached (conn : Handle) (k : Prog A)
| GetEnv (key : string) (k : option string → Prog A)
| ReadConnection (k : Connection → Prog A)
| Now (k : string → Prog A)
| Console (s : Stream) (args : list LogArg) (k : Prog A)
| MongooseConnect (uri : option string) (o : ConnectOptions) (k : Promise → Prog A)
| Await (p : Promise) (k : Settled → Prog A)
| OnConnection (event : string) (fn : option Error → Prog unit) (k : Prog A)
| Listen (port : value) (callback : Prog unit) (k : Prog A)
| Detach (child : Prog unit) (k : Prog A)
| Exit (code : Z).

Arguments Ret {A} a.
Arguments Throw {A} e.
Arguments GetCached {A} k.
Arguments SetCached {A} conn k.
Arguments GetEnv {A} key k.
Arguments ReadConnection {A} k.
Arguments Now {A} k.
Arguments Console {A} s args k.
Arguments MongooseConnect {A} uri o k.
Arguments Await {A} p k.
Arguments OnConnection {A} event fn k.
Arguments Listen {A} port callback k.
Arguments Detach {A} child k.
Arguments Exit {A} code.

Fixpoint bind {A B : Type} (m : Prog A) (f : A → Prog B) : Prog B :=
  match m with
  | Ret a => f a
  | Throw e => Throw e
  | GetCached k => GetCached (λ c, bind (k c) f)
  | SetCached conn k => SetCached conn (bind k f)
  | GetEnv key k => GetEnv key (λ v, bind (k v) f)
  | ReadConnection k => ReadConnection (λ c, bind (k c) f)
  | Now k => Now (λ t, bind (k t) f)
  | Console s args k => Console s args (bind k f)
  | MongooseConnect uri o k => MongooseConnect uri o (λ p, bind (k p) f)
  | Await p k => Await p (λ r, bind (k r) f)
  | OnConnection event fn k => OnConnection event fn (bind k f)
  | Listen port callback k => Listen port callback (bind k f)
  | Detach child k => Detach child (bind k f)
  | Exit code => Exit code
  end.

(** [try { body } catch (error) { handler }] *)
Fixpoint try_catch {A : Type} (body : Prog A) (handler : Error → Prog A) : Prog A :=
  match body with
  | Ret a => Ret a
  | Throw e => handler e
  | GetCached k => GetCached (λ c, try_catch (k c) handler)
  | SetCached conn k => SetCached conn (try_catch k handler)
  | GetEnv key k => GetEnv key (λ v, try_catch (k v) handler)
  | ReadConnection k => ReadConnection (λ c, try_catch (k c) handler)
  | Now k => Now (λ t, try_catch (k t) handler)
  | Console s args k => Console s args (try_catch k handler)
  | MongooseConnect uri o k => MongooseConnect uri o (λ p, try_catch (k p) handler)
  | Await p k => Await p (λ r, try_catch (k r) handler)
  | OnConnection event fn k => OnConnection event fn (try_catch k handler)
  | Listen port callback k => Listen port callback (try_catch k handler)
  | Detach child k => Detach child (try_catch k handler)
  | Exit code => Exit code
  end.

(** [await p]: the value of a fulfilled promise, or its rejection thrown. *)
Definition await (p : Promise) : Prog Handle :=
  Await p (λ r, match r with Fulfilled conn => Ret conn | Rejected e => Throw e end).

Declare Scope prog_scope.
Delimit Scope prog_scope with prog.
Notation "'let*' x ':=' m 'in' f" := (bind m (λ x, f))
  (at level 10, x name, m at level 100, f at level 200) : prog_scope.
Notation "m '>>' f" := (bind m (λ _, f))
  (at level 65, right associativity) : prog_scope.
Local Open Scope prog_scope.

Definition getCached : Prog (option Handle) := GetCached Ret.
Definition setCached (conn : Handle) : Prog unit := SetCached conn (Ret tt).
Definition getEnv (key : string) : Prog (option string) := GetEnv key Ret.
Definition readConnection : Prog Connection := ReadConnection Ret.
Definition now : Prog string := Now Ret.
Definition console_log (args : list LogArg) : Prog unit := Console Out args (Ret tt).
Definition console_error (args : list LogArg) : Prog unit := Console Err args (Ret tt).
Definition mongoose_connect (uri : option string) (o : ConnectOptions) : Prog Promise :=
  MongooseConnect uri o Ret.
Definition process_exit {A : Type} (code : Z) : Prog A := Exit code.

(** ** The process *)

Inductive Event : Type :=
| EvConnect (uri : option string) (o : ConnectOptions) (p : Promise)
| EvConsole (s : Stream) (args : list LogArg)
| EvListen (port : value)
| EvExit (code : Z).

(** A suspended async call: the promise it waits for and what it does
    with the outcome. *)
Record Parked (A : Type) : Type := MkParked {
  waits_for : Promise;
  resume : Settled → Prog A
}.
Arguments MkParked {A} waits_for resume.
Arguments waits_for {A} p.
Arguments resume {A} p s.

Record World : Type := MkWorld {
  cachedConnection : option Handle;
  connection : Connection;
  env : gmap string string;
  clock : string;
  next_promise : Promise;
  listeners : list (string * (option Error → Prog unit));
  listening : bool;
  background : list (Parked unit);
  exited : option Z;
  trace : list Event
}.

Definition set_cached (conn : Handle) (w : World) : World :=
  MkWorld (Some conn) (connection w) (env w) (clock w) (next_promise w)
          (listeners w) (listening w) (background w) (exited w) (trace w).

Definition set_connection (c : Connection) (w : World) : World :=
  MkWorld (cachedConnection w) c (env w) (clock w) (next_promise w)
          (listeners w) (listening w) (background w) (exited w) (trace w).

Definition emit (e : Event) (w : World) : World :=
  MkWorld (cachedConnection w) (connection w) (env w) (clock w) (next_promise w)
          (listeners w) (listening w) (background w) (exited w) (trace w ++ [e]).

Definition fresh_promise (w : World) : World :=
  MkWorld (cachedConnection w) (connection w) (env w) (clock w) (S (next_promise w))
          (listeners w) (listening w) (background w) (exited w) (trace w).

Definition add_listener (event : string) (fn : option Error → Prog unit) (w : World) : World :=
  MkWorld (cachedConnection w) (connection w) (env w) (clock w) (next_promise w)
          (listeners w ++ [(event, fn)]) (listening w) (background w) (exited w) (trace w).

Definition set_listening (w : World) : World :=
  MkWorld (cachedConnection w) (connection w) (env w) (clock w) (next_promise w)
          (listeners w) true (background w) (exited w) (trace w).

Definition park (t : Parked unit) (w : World) : World :=
  MkWorld (cachedConnection w) (connection w) (env w) (clock w) (next_promise w)
          (listeners w) (listening w) (background w ++ [t]) (exited w) (trace w).

Definition set_exited (code : Z) (w : World) : World :=
  MkWorld (cachedConnection w) (connection w) (env w) (clock w) (next_promise w)
          (listeners w) (listening w) (background w) (Some code) (trace w).

Definition set_clock (t : string) (w : World) : World :=
  MkWorld (cachedConnection w) (connection w) (env w) t (next_promise w)
          (listeners w) (listening w) (background w) (exited w) (trace w).

Definition set_background (ts : list (Parked unit)) (w : World) : World :=
  MkWorld (cachedConnection w) (connection w) (env w) (clock w) (next_promise w)
          (listeners w) (listening w) ts (exited w) (trace w).

(** How a synchronous run ends. *)
Inductive Paused (A : Type) : Type :=
| Done (a : A)
| Failed (e : Error)
| Blocked (t : Parked A)
| Halted (code : Z).
Arguments Done {A} a.
Arguments Failed {A} e.
Arguments Blocked {A} t.
Arguments Halted {A} code.

(** Runs [m] up to its first suspension.  [mongoose.connect] hands out a
    fresh pending promise and is recorded in the trace; a call that is not
    awaited ([Detach]) runs up to its own first suspension and is parked
    in the background; [process.exit] stops everything. *)
Fixpoint run {A : Type} (m : Prog A) (w : World) : World * Paused A :=
  match m with
  | Ret a => (w, Done a)
  | Throw e => (w, Failed e)
  | GetCached k => run (k (cachedConnection w)) w
  | SetCached conn k => run k (set_cached conn w)
  | GetEnv key k => run (k (env w !! key)) w
  | ReadConnection k => run (k (connection w)) w
  | Now k => run (k (clock w)) w
  | Console s args k => run k (emit (EvConsole s args) w)
  | MongooseConnect uri o k =>
      let p := next_promise w in
      run (k p) (emit (EvConnect uri o p) (fresh_promise w))
  | Await p k => (w, Blocked (MkParked p k))
  | OnConnection event fn k => run k (add_listener event fn w)
  | Listen port callback k =>
      run k (add_listener "listening" (λ _, callback)
               (emit (EvListen port) (set_listening w)))
  | Detach child k =>
      match run child w with
      | (w', Halted code) => (w', Halted code)
      | (w', Blocked t) => run k (park t w')
      | (w', _) => run k w'
      end
  | Exit code => (emit (EvExit code) (set_exited code w), Halted code)
  end.

(** ** The event loop

    Calls that are awaited by nobody but the environment (a request being
    handled, a direct call of [connectDB]) are numbered; [parked] holds the
    suspended ones and [finished] the completed ones with their outcome.
    The microtask hops between the completion of an async callee and the
    resumption of its caller carry no effect of this program, so a resumed
    call runs on to its next await on a driver promise. *)

Inductive Input (A : Type) : Type :=
| Call (id : nat) (m : Prog A)
| Settle (p : Promise) (s : Settled) (c : Connection)
| Emit (event : string) (arg : option Error) (c : Connection)
| Tick (t : string).
Arguments Call {A} id m.
Arguments Settle {A} p s c.
Arguments Emit {A} event arg c.
Arguments Tick {A} t.

Record Loop (A : Type) : Type := MkLoop {
  world : World;
  parked : list (nat * Parked A);
  finished : list (nat * Paused A)
}.
Arguments MkLoop {A} world parked finished.
Arguments world {A} l.
Arguments parked {A} l.
Arguments finished {A} l.

(** Books the outcome of a synchronous run of call [id]. *)
Definition land {A : Type} (id : nat) (r : World * Paused A) (l : Loop A) : Loop A :=
  match r with
  | (w, Blocked t) => MkLoop w (parked l ++ [(id, t)]) (finished l)
  | (w, out) => MkLoop w (parked l) (finished l ++ [(id, out)])
  end.

(** Resumes, in order, the background calls that wait for [p]. *)
Fixpoint wake_background (p : Promise) (s : Settled) (ts : list (Parked unit))
    (w : World) : World :=
  match ts with
  | [] => w
  | t :: rest =>
      match exited w with
      | Some _ => w
      | None =>
          if Nat.eqb (waits_for t) p then
            match run (resume t s) w with
            | (w', Blocked t') => wake_background p s rest (park t' w')
            | (w', _) => wake_background p s rest w'
            end
          else wake_background p s rest (park t w)
      end
  end.

(** Resumes, in order, the numbered calls that wait for [p]. *)
Fixpoint wake {A : Type} (p : Promise) (s : Settled) (ts : list (nat * Parked A))
    (l : Loop A) : Loop A :=
  match ts with
  | [] => l
  | (id, t) :: rest =>
      match exited (world l) with
      | Some _ => l
      | None =>
          if Nat.eqb (waits_for t) p then
            wake p s rest (land id (run (resume t s) (world l)) l)
          else wake p s rest (MkLoop (world l) (parked l ++ [(id, t)]) (finished l))
      end
  end.

(** Calls, in order of registration, the listeners of [event]. *)
Fixpoint fire (event : string) (arg : option Error)
    (ls : list (string * (option Error → Prog unit))) (w : World) : World :=
  match ls with
  | [] => w
  | (name, fn) :: rest =>
      match exited w with
      | Some _ => w
      | None =>
          if String.eqb name event then
            match run (fn arg) w with
            | (w', Blocked t) => fire event arg rest (park t w')
            | (w', _) => fire event arg rest w'
            end
          else fire event arg rest w
      end
  end.

Definition step {A : Type} (l : Loop A) (i : Input A) : Loop A :=
  match exited (world l) with
  | Some _ => l
  | None =>
      match i with
      | Call id m => land id (run m (world l)) l
      | Settle p s c =>
          let w := set_connection c (world l) in
          let w' := wake_background p s (background w) (set_background [] w) in
          wake p s (parked l) (MkLoop w' [] (finished l))
      | Emit event arg c =>
          let w := set_connection c (world l) in
          MkLoop (fire event arg (listeners w) w) (parked l) (finished l)
      | Tick t => MkLoop (set_clock t (world l)) (parked l) (finished l)
      end
  end.

Definition exec {A : Type} (l : Loop A) (inputs : list (Input A)) : Loop A :=
  foldl step l inputs.

Definition boot {A : Type} (w : World) : Loop A := MkLoop w [] [].

(** The calls of [mongoose.connect] recorded in a trace. *)
Definition is_connect (e : Event) : bool :=
  match e with
  | EvConnect _ _ _ => true
  | _ => false
  end.

Definition connects (tr : list Event) : list Event := filter is_connect tr.

Definition attempts (w : World) : nat := length (connects (trace w)).

(** The outcome booked for call [id], if it has completed. *)
Fixpoint outcome {A : Type} (id : nat) (fs : list (nat * Paused A)) : option (Paused A) :=
  match fs with
  | [] => None
  | (id', r) :: rest => if Nat.eqb id id' then Some r else outcome id rest
  end.

(** ** Express *)

Record Request : Type := MkRequest {
  method : string;
  originalUrl : string;
  path : string
}.

(** The response under construction that a handler receives. *)
Record Res : Type := MkRes {
  statusCode : Z;
  headers : list (string * string)
}.

Record Response : Type := MkResponse {
  status : Z;
  sent_headers : list (string * string);
  body : value
}.

Definition fresh_res : Res := MkRes 200 [].

(** [res.status(code)] *)
Definition res_status (code : Z) (res : Res) : Res := MkRes code (headers res).

(** [res.setHeader(k, v)] *)
Definition res_setHeader (k v : string) (res : Res) : Res :=
  MkRes (statusCode res) (headers res ++ [(k, v)]).

(** [res.json(b)] *)
Definition res_json (b : value) (res : Res) : Response :=
  MkResponse (statusCode res) (headers res) b.

(** What a handler did with the request. *)
Inductive Outcome : Type :=
| Sent (r : Response)
| Next (res : Res)
| NextErr (e : Error) (res : Res).

Definition Handler : Type := Request → Res → Prog Outcome.

Inductive Layer : Type :=
| Use (h : Handler)
| UseAt (mount : string) (h : Handler)
| Get (route : string) (h : Handler)
| UseError (h : Error → Handler).

(** The collaborators that are not in the repository, with the
    configuration the source gives them. *)
Inductive External : Type :=
| helmet (options : value)
| compression
| cors (options : value)
| rateLimit (options : value)
| express_json (options : value)
| express_urlencoded (options : value)
| express_static (root : string)
| router (module : string).

(** Express's path matching and the behaviour of the collaborators. *)
Record Express : Type := MkExpress {
  mounted : string → Request → bool;
  routed : string → string → Request → bool;
  external : External → Request → Res → Outcome
}.

Section Dispatch.

Context (X : Express).

Definition ext (e : External) : Handler := λ req res, Ret (external X e req res).

(** The handler a layer contributes for this request, if any: error
    handlers see only errors, the others only requests without one. *)
Definition applies (layer : Layer) (err : option Error) (req : Request) : option Handler :=
  match layer, err with
  | Use h, None => Some h
  | UseAt mount h, None => if mounted X mount req then Some h else None
  | Get route h, None => if routed X "GET" route req then Some h else None
  | UseError h, Some e => Some (h e)
  | _, _ => None
  end.

(** Express runs the stack in order; an exception thrown by a handler is
    passed on as [next(err)]. *)
Fixpoint dispatch (stack : list Layer) (err : option Error) (req : Request) (res : Res)
    : Prog (option Response) :=
  match stack with
  | [] => Ret None
  | layer :: rest =>
      match applies layer err req with
      | None => dispatch rest err req res
      | Some h =>
          let* out := try_catch (h req res) (λ e, Ret (NextErr e res)) in
          match out with
          | Sent r => Ret (Some r)
          | Next res' => dispatch rest None req res'
          | NextErr e res' => dispatch rest (Some e) req res'
          end
      end
  end.

End Dispatch.

(** [dbStatusText], the same object literal in both entry points. *)
Definition dbStatusText : gmap Z string :=
  {[ 0 := "disconnected"; 1 := "connected"; 2 := "connecting"; 3 := "disconnecting" ]}.

(** ** The serverless entry point *)

Module Serverless.

Definition options : ConnectOptions :=
  {| serverSelectionTimeoutMS := 5000;
     socketTimeoutMS := 45000;
     maxPoolSize := 5;
     minPoolSize := 0;
     maxIdleTimeMS := 10000;
     connectTimeoutMS := 10000;
     bufferCommands := Some false |}.

Definition connectDB : Prog Handle :=
  let* cachedConnection := getCached in
  match cachedConnection with
  | Some conn => Ret conn
  | None =>
      try_catch
        (let* uri := getEnv "MONGODB_ATLAS_URI" in
         let* p := mongoose_connect uri options in
         let* conn := await p in
         setCached conn >>
         let* c := readConnection in
         console_log [Text ("MongoDB Atlas Connected: " ++ show (host c))] >>
         Ret conn)
        (λ error,
           console_error [Text "MongoDB connection error:"; Thrown error] >>
           Throw error)
  end.

(** [app.use(async (req, res, next) => ...)] *)
Definition connect_middleware : Handler := λ req res,
  try_catch
    (connectDB >> Ret (Next res))
    (λ error,
       Ret (Sent (res_json
         (VObj [("message", VStr "Database connection failed");
                ("error", VStr (message error))])
         (res_status 500 res)))).

(** [app.get('/api/health', ...)] *)
Definition health : Handler := λ req res,
  try_catch
    (let* c := readConnection in
     let dbStatus := readyState c in
     let* timestamp := now in
     Ret (Sent (res_json
       (VObj [("status", VStr "OK");
              ("message", VStr "Server is running on Vercel");
              ("database", VObj
                 [("status", of_option (dbStatusText !! dbStatus));
                  ("host", Js.or (host c) (VStr "Not connected"));
                  ("name", Js.or (Mongoose.name c) (VStr "Not connected"))]);
              ("timestamp", VStr timestamp);
              ("serverless", VBool true)])
       res)))
    (λ error,
       Ret (Sent (res_json
         (VObj [("status", VStr "ERROR");
                ("message", VStr "Health check failed");
                ("error", VStr (message error))])
         (res_status 500 res)))).

(** The global error handler. *)
Definition error_handler (err : Error) : Handler := λ req res,
  console_error [Text "Error:"; Text (stack err)] >>
  let* node_env := getEnv "NODE_ENV" in
  Ret (Sent (res_json
    (VObj [("message", VStr "Something went wrong!");
           ("error", if bool_decide (node_env = Some "production")
                     then VStr "Internal Server Error"
                     else VStr (message err))])
    (res_status 500 res))).

(** The 404 fallback. *)
Definition not_found : Handler := λ req res,
  Ret (Sent (res_json
    (VObj [("message", VStr "Route not found");
           ("path", VStr (originalUrl req))])
    (res_status 404 res))).

Definition app (X : Express) : list Layer :=
  [ Use (ext X (helmet (VObj [("crossOriginResourcePolicy",
                                VObj [("policy", VStr "cross-origin")])])));
    Use (ext X compression);
    Use (ext X (cors (VObj [("origin", VArr [VStr "https://your-frontend-domain.vercel.app";
                                              VStr "http://localhost:3000";
                                              VStr "https://localhost:3000"]);
                            ("credentials", VBool true)])));
    UseAt "/api/" (ext X (rateLimit (VObj [("windowMs", VNum (15 * 60 * 1000));
                                           ("max", VNum 50);
                                           ("standardHeaders", VBool true);
                                           ("legacyHeaders", VBool false)])));
    Use (ext X (express_json (VObj [("limit", VStr "5mb")])));
    Use (ext X (express_urlencoded (VObj [("extended", VBool true);
                                          ("limit", VStr "5mb")])));
    Use connect_middleware;
    UseAt "/api/blogs" (ext X (router "../routes/blogRoutes"));
    UseAt "/api/projects" (ext X (router "../routes/projectRoutes"));
    UseAt "/api/services" (ext X (router "../routes/serviceRoutes"));
    UseAt "/api/teams" (ext X (router "../routes/teamRoutes"));
    Get "/api/health" health;
    UseError error_handler;
    Use not_found ].

(** One invocation of the exported application. *)
Definition serve (X : Express) (req : Request) : Prog (option Response) :=
  dispatch X (app X) None req fresh_res.

End Serverless.

(** ** The long-running entry point *)

Module LongRunning.

Definition options : ConnectOptions :=
  {| serverSelectionTimeoutMS := 5000;
     socketTimeoutMS := 45000;
     maxPoolSize := 10;
     minPoolSize := 0;
     maxIdleTimeMS := 30000;
     connectTimeoutMS := 10000;
     bufferCommands := None |}.

Definition connectDB : Prog unit :=
  try_catch
    (let* uri := getEnv "MONGODB_ATLAS_URI" in
     let* p := mongoose_connect uri options in
     let* conn := await p in
     let* c := readConnection in
     console_log [Text ("MongoDB Atlas Connected: " ++ show (host c))] >>
     console_log [Text ("Database Name: " ++ show (Mongoose.name c))])
    (λ error,
       console_error [Text "MongoDB Atlas connection error:"; Text (message error)] >>
       process_exit 1).

(** The headers set on everything under [/images]. *)
Definition images_headers : Handler := λ req res,
  Ret (Next (res_setHeader "Cross-Origin-Resource-Policy" "cross-origin"
               (res_setHeader "Access-Control-Allow-Origin" "http://localhost:3000" res))).

(** [app.get('/api/health', ...)] *)
Definition health : Handler := λ req res,
  let* c := readConnection in
  let dbStatus := readyState c in
  let* timestamp := now in
  Ret (Sent (res_json
    (VObj [("status", VStr "OK");
           ("message", VStr "Server is running");
           ("database", VObj
              [("status", of_option (dbStatusText !! dbStatus));
               ("host", host c);
               ("name", Mongoose.name c)]);
           ("timestamp", VStr timestamp)])
    res)).

(** The global error handler. *)
Definition error_handler (err : Error) : Handler := λ req res,
  console_error [Text (stack err)] >>
  let* node_env := getEnv "NODE_ENV" in
  Ret (Sent (res_json
    (VObj [("message", VStr "Something went wrong!");
           ("error", if bool_decide (node_env = Some "production")
                     then VObj []
                     else VStr (message err))])
    (res_status 500 res))).

(** The 404 fallback. *)
Definition not_found : Handler := λ req res,
  Ret (Sent (res_json (VObj [("message", VStr "Route not found")])
                      (res_status 404 res))).

(** The stack, as the statements of the script register it;
    [frontend_url] is [process.env.FRONTEND_URL]. *)
Definition app (X : Express) (frontend_url : option string) : list Layer :=
  [ Use (ext X (helmet VUndefined));
    Use (ext X compression);
    Use (ext X (cors (VObj [("origin", Js.or (of_option frontend_url)
                                             (VStr "http://localhost:3000"));
                            ("credentials", VBool true)])));
    UseAt "/api/" (ext X (rateLimit (VObj [("windowMs", VNum (15 * 60 * 1000));
                                           ("max", VNum 100)])));
    Use (ext X (express_json (VObj [("limit", VStr "10mb")])));
    Use (ext X (express_urlencoded (VObj [("extended", VBool true);
                                          ("limit", VStr "10mb")])));
    UseAt "/images" images_headers;
    UseAt "/images" (ext X (express_static "public/images"));
    UseAt "/api/blogs" (ext X (router "./routes/blogRoutes"));
    UseAt "/api/projects" (ext X (router "./routes/projectRoutes"));
    UseAt "/api/services" (ext X (router "./routes/serviceRoutes"));
    UseAt "/api/teams" (ext X (router "./routes/teamRoutes"));
    Get "/api/health" health;
    UseError error_handler;
    Use not_found ].

(** The effects of the script, in the order of its statements:
    [connectDB()] is called and not awaited, the connection listeners
    are registered, the server is told to listen.  The SIGINT handler,
    which closes the connection and exits, is left out: no signal is among
    the inputs of the event loop. *)
Definition main : Prog unit :=
  let* port := getEnv "PORT" in
  let PORT := Js.or (of_option port) (VNum 5000) in
  Detach connectDB
    (OnConnection "connected"
       (λ _, console_log [Text "Mongoose connected to MongoDB Atlas"])
    (OnConnection "error"
       (λ err, console_error
                 [Text "Mongoose connection error:";
                  match err with Some e => Thrown e | None => Text "undefined" end])
    (OnConnection "disconnected"
       (λ _, console_log [Text "Mongoose disconnected from MongoDB Atlas"])
    (Listen PORT
       (console_log [Text ("Server is running on port " ++ show PORT)] >>
        console_log [Text ("Health check: http://localhost:" ++ show PORT ++ "/api/health")])
       (Ret tt))))).

(** A request handled by the running server. *)
Definition serve (X : Express) (w : World) (req : Request) : Prog (option Response) :=
  dispatch X (app X (env w !! "FRONTEND_URL")) None req fresh_res.

(** [process.on('SIGINT', async () => ...)], from the point where
    [mongoose.connection.close()] has returned the promise [closing]: the
    handler awaits it, then logs and exits with 0, or logs the error and
    exits with 1. *)
Definition on_sigint (closing : Promise) : Prog unit :=
  try_catch
    (let* _ := await closing in
     console_log [Text "MongoDB Atlas connection closed through app termination"] >>
     process_exit 0)
    (λ error,
       console_error [Text "Error closing MongoDB connection:"; Thrown error] >>
       process_exit 1).

End LongRunning.

(** ** Vocabulary of the statements *)

(** How a run continues after [m] when [f] is sequenced behind it. *)
Definition and_then {A B : Type} (f : A → Prog B) (r : World * Paused A) : World * Paused B :=
  match r with
  | (w, Done a) => run (f a) w
  | (w, Failed e) => (w, Failed e)
  | (w, Blocked t) => (w, Blocked (MkParked (waits_for t) (λ s, bind (resume t s) f)))
  | (w, Halted code) => (w, Halted code)
  end.

(** How a run continues when [m] sits in a [try] block. *)
Definition or_catch {A : Type} (handler : Error → Prog A) (r : World * Paused A)
    : World * Paused A :=
  match r with
  | (w, Failed e) => run (handler e) w
  | (w, Blocked t) =>
      (w, Blocked (MkParked (waits_for t) (λ s, try_catch (resume t s) handler)))
  | other => other
  end.

(** The state of a process that has just been started. *)
Definition started (e : gmap string string) (c : Connection) (t : string) : World :=
  MkWorld None c e t 0 [] false [] None [].

(** The collaborators let this request through untouched. *)
Definition transparent (X : Express) (req : Request) : Prop :=
  ∀ e res, external X e req res = Next res.

(** [database.status] and [database.host] of a health report. *)
Definition database_status (r : Response) : value := get "status" (get "database" (body r)).
Definition database_host (r : Response) : value := get "host" (get "database" (body r)).

(** A small Express for the examples: a mount matches the paths it
    prefixes, a route the paths it equals, and the collaborators let
    everything through. *)
Definition plain : Express :=
  MkExpress (λ mount req, String.prefix mount (path req))
            (λ m route req, String.eqb m (method req) && String.eqb route (path req))
            (λ _ _ res, Next res).

Definition never_connected : Connection := MkConnection DISCONNECTED VNull VNull.

Definition atlas : Connection :=
  MkConnection CONNECTED (VStr "cluster0.example.mongodb.net") (VStr "portfolio").

Definition lost : Connection :=
  MkConnection DISCONNECTED (VStr "cluster0.example.mongodb.net") (VStr "portfolio").

Definition cold : World := started ∅ never_connected "2024-01-01T00:00:00.000Z".

(** A warm serverless instance: handle 7 is cached and connected. *)
Definition warm : World := set_cached 7 (set_connection atlas cold).

Definition refused : Error :=
  MkError "MongooseServerSelectionError"
          "connect ECONNREFUSED 10.0.0.5:27017"
          "MongooseServerSelectionError: connect ECONNREFUSED 10.0.0.5:27017".

Definition get_health : Request := MkRequest "GET" "/api/health" "/api/health".
Definition get_nowhere : Request := MkRequest "GET" "/nowhere?x=1" "/nowhere".

(** What a completed request was answered with. *)
Definition answer (r : World * Paused (option Response)) : option Response :=
  match r.2 with
  | Done o => o
  | _ => None
  end.

(** The state of the long-running process once its script has run. *)
Definition up (w : World) : World := (run LongRunning.main w).1.

(** The body mentions [s]: one of its properties is that string. *)
Definition mentions (s : string) (r : Response) : Prop :=
  ∃ k, get k (body r) = VStr s.

(** A 404 that echoes the path of the request. *)
Definition echoes_path (req : Request) (o : option Response) : Prop :=
  ∃ r, o = Some r ∧ status r = 404
       ∧ (mentions (originalUrl req) r ∨ mentions (path req) r).

(** A 500 that keeps the cause of the failure to itself. *)
Definition generic_failure (cause : Error) (o : option (Paused (option Response))) : Prop :=
  ∃ r, o = Some (Done (Some r)) ∧ status r = 500 ∧ ¬ mentions (message cause) r.

(** A call that fails on the spot with a configuration error and has not
    called the driver. *)
Definition fails_fast {A : Type} (w : World) (r : World * Paused A) : Prop :=
  ∃ e, r.2 = Failed e ∧ Js.name e = "ConfigurationError" ∧ attempts r.1 = attempts w.

(** A call that has gone to the driver again and has not been answered
    with the handle [stale]. *)
Definition refreshes (stale : Handle) (before : World) (l : Loop Handle) (id : nat) : Prop :=
  attempts (world l) = S (attempts before)
  ∧ outcome id (finished l) ≠ Some (Done stale).

(** No call is waiting for the driver any more when the server listens. *)
Definition established_before_listening (w : World) : Prop :=
  listening w = true → background w = [].

(** A process that has exited has answered no request. *)
Definition never_served {A : Type} (l : Loop A) : Prop :=
  exited (world l) ≠ None → finished l = [].

(** A health report of a connection that is down and has no host. *)
Definition reports_disconnected (o : option (Paused (option Response))) : Prop :=
  ∃ r, o = Some (Done (Some r))
       ∧ database_status r = VStr "disconnected"
       ∧ database_host r = VNull.

(** Every caller of a series was given the same outcome. *)
Definition same_outcome {A : Type} (ids : list nat) (l : Loop A) : Prop :=
  ∃ r, ∀ id, id ∈ ids → outcome id (finished l) = Some r.

(** Where the stack goes after a handler, by what the handler did. *)
Definition onward (X : Express) (rest : list Layer) (req : Request) (out : Outcome)
    : Prog (option Response) :=
  match out with
  | Sent r => Ret (Some r)
  | Next res' => dispatch X rest None req res'
  | NextErr e res' => dispatch X rest (Some e) req res'
  end.

(** The response under construction when the long-running stack gets
    past [/images]. *)
Definition past_images (X : Express) (req : Request) : Res :=
  if mounted X "/images" req
  then res_setHeader "Cross-Origin-Resource-Policy" "cross-origin"
         (res_setHeader "Access-Control-Allow-Origin" "http://localhost:3000" fresh_res)
  else fresh_res.

(** ** What a handler can do

    [safe warm budget P Q m] reads the shape of [m]: it never exits,
    listens, registers a listener or leaves a call behind; it calls
    [mongoose.connect] at most [budget] times; it awaits only once that
    budget is spent, and not at all when the cache is known to be filled
    ([warm]); it ends in a result that satisfies [P] or an exception that
    satisfies [Q], both told what is then known of the cache and what is
    left of the budget. *)
Fixpoint safe {A : Type} (warm : bool) (budget : nat)
    (P : bool → nat → A → Prop) (Q : bool → nat → Error → Prop) (m : Prog A) : Prop :=
  match m with
  | Ret a => P warm budget a
  | Throw e => Q warm budget e
  | GetCached k => ∀ c, (warm = true → is_Some c) → safe warm budget P Q (k c)
  | SetCached _ k => safe true budget P Q k
  | GetEnv _ k => ∀ v, safe warm budget P Q (k v)
  | ReadConnection k => ∀ c, safe warm budget P Q (k c)
  | Now k => ∀ t, safe warm budget P Q (k t)
  | Console _ _ k => safe warm budget P Q k
  | MongooseConnect _ _ k =>
      match budget with
      | O => False
      | S budget' => ∀ p, safe warm budget' P Q (k p)
      end
  | Await _ k => warm = false ∧ budget = O ∧ ∀ s, safe false O P Q (k s)
  | OnConnection _ _ _ | Listen _ _ _ | Detach _ _ | Exit _ => False
  end.

(** A request is answered; no exception is left unhandled. *)
Definition answered : bool → nat → option Response → Prop := λ _ _ o, is_Some o.
Definition unhandled : bool → nat → Error → Prop := λ _ _ _, False.

(** The stack answers the request, with or without an error on the way,
    from every state of knowledge that [C] allows. *)
Definition handles (X : Express) (req : Request) (C : bool → nat → Prop)
    (stack : list Layer) : Prop :=
  ∀ warm budget err res,
    C warm budget →
    safe warm budget answered unhandled (dispatch X stack err req res).

(** Enough is known to go through [connectDB]: the cache is filled or one
    call of the driver is allowed. *)
Definition may_connect : bool → nat → Prop := λ warm budget, warm = true ∨ budget = 1%nat.

(** The process has not exited and nothing but numbered calls is
    pending in it: the state of a serverless instance. *)
Definition quiet (w : World) : Prop :=
  exited w = None ∧ listeners w = [] ∧ background w = [].

Definition is_call {A : Type} (i : Input A) : bool :=
  match i with
  | Call _ _ => true
  | _ => false
  end.

(** The number of calls among the inputs. *)
Definition calls {A : Type} (inputs : list (Input A)) : nat :=
  length (filter is_call inputs).

(** An input of a serverless instance: a request handed to the exported
    application, or anything the driver or the clock does. *)
Definition serverless_input (X : Express) (i : Input (option Response)) : Prop :=
  match i with
  | Call _ m => ∃ req, m = Serverless.serve X req
  | _ => True
  end.

(** A call that has completed with a response. *)
Definition replied (entry : nat * Paused (option Response)) : Prop :=
  ∃ r, entry.2 = Done (Some r).

(** A parked call that will not go to the driver again. *)
Definition spent (entry : nat * Parked (option Response)) : Prop :=
  ∀ s, safe false 0 answered unhandled (resume entry.2 s).

(** What stays true of a serverless instance: it runs, every completed
    request has its response, the parked ones have made their call of the
    driver, [n] requests have come in, and the driver has been called at
    most [base] times. *)
Definition steady (base n : nat) (l : Loop (option Response)) : Prop :=
  quiet (world l)
  ∧ Forall replied (finished l)
  ∧ Forall spent (parked l)
  ∧ (attempts (world l) ≤ base)%nat
  ∧ (length (parked l) + length (finished l))%nat = n.


(** A history for the examples: two requests come in on a cold instance,
    the driver refuses the first connection and grants the second, and a
    third request follows. *)
Definition busy_morning : list (Input (option Response)) :=
  [Call 1%nat (Serverless.serve plain get_health);
   Call 2%nat (Serverless.serve plain get_nowhere);
   Settle 0%nat (Rejected refused) never_connected;
   Emit "connected" None atlas;
   Settle 1%nat (Fulfilled 7%nat) atlas;
   Tick "2024-01-01T00:00:05.000Z";
   Call 3%nat (Serverless.serve plain get_health)].

(** An input of the long-running server whose state after the script
    is [u]: a request, or anything the driver or the clock does. *)
Definition long_running_input (X : Express) (u : World)
    (i : Input (option Response)) : Prop :=
  match i with
  | Call _ m => ∃ req, m = LongRunning.serve X u req
  | _ => True
  end.

(** The driver rejects the promise [p] somewhere among the inputs. *)
Definition rejects {A : Type} (p : Promise) (inputs : list (Input A)) : Prop :=
  ∃ e c, Settle p (Rejected e) c ∈ inputs.

(** A listener that does nothing but write to the console. *)
Definition logs_only (fn : option Error → Prog unit) : Prop :=
  ∀ arg w, ∃ w', run (fn arg) w = (w', Done tt)
                 ∧ exited w' = exited w
                 ∧ listeners w' = listeners w
                 ∧ background w' = background w
                 ∧ attempts w' = attempts w.

(** The continuation of the [connectDB] call of the script: it logs and
    ends when the driver grants the connection, and exits with code 1
    when the driver rejects it. *)
Definition startup_call (k : Settled → Prog unit) : Prop :=
  (∀ conn w, ∃ w', run (k (Fulfilled conn)) w = (w', Done tt)
                   ∧ exited w' = exited w
                   ∧ listeners w' = listeners w
                   ∧ background w' = background w
                   ∧ attempts w' = attempts w)
  ∧ (∀ e w, ∃ w', run (k (Rejected e)) w = (w', Halted 1)
                  ∧ exited w' = Some 1
                  ∧ attempts w' = attempts w).

(** What stays true of the long-running server while it runs: its
    listeners are the ones the script registered, the driver has been
    called [a] times, every completed request has its response, and the
    background holds at most the [connectDB] call of the script, waiting
    for [p0]. *)
Definition serving (p0 : Promise) (a : nat)
    (ls : list (string * (option Error → Prog unit)))
    (l : Loop (option Response)) : Prop :=
  exited (world l) = None
  ∧ listeners (world l) = ls
  ∧ attempts (world l) = a
  ∧ Forall replied (finished l)
  ∧ Forall spent (parked l)
  ∧ (background (world l) = []
     ∨ ∃ k, background (world l) = [MkParked p0 k] ∧ startup_call k).

(** How the long-running server may have ended: with exit code 1, the
    driver having been called [a] times and every completed request
    having its response. *)
Definition ended (a : nat) (l : Loop (option Response)) : Prop :=
  exited (world l) = Some 1
  ∧ attempts (world l) = a
  ∧ Forall replied (finished l).

(** Histories of the long-running server for the examples: one in which
    the driver grants the startup connection and later loses it, one in
    which it refuses it. *)
Definition busy_server : list (Input (option Response)) :=
  [Call 1%nat (LongRunning.serve plain (up cold) get_health);
   Emit "connected" None atlas;
   Settle 0%nat (Fulfilled 7%nat) atlas;
   Call 2%nat (LongRunning.serve plain (up cold) get_nowhere);
   Emit "disconnected" None lost;
   Call 3%nat (LongRunning.serve plain (up cold) get_health)].


(** ** Running programs *)

Lemma run_bind {A B : Type} (m : Prog A) (f : A → Prog B) (w : World) :
  run (bind m f) w = and_then f (run m w).
Proof.
  revert B f w.
  induction m as
    [A a|A e|A k IH|A conn k IH|A key k IH|A k IH|A k IH|A s args k IH|A uri o k IH
    |A p k IH|A event fn IHfn k IH|A port cb IHcb k IH|A child IHc k IH|A code];
    intros B f w; simpl; auto.
  destruct (run child w) as [w' [u|e|t|code]]; simpl; auto.
Qed.

Lemma run_try_catch {A : Type} (m : Prog A) (handler : Error → Prog A) (w : World) :
  run (try_catch m handler) w = or_catch handler (run m w).
Proof.
  revert handler w.
  induction m as
    [A a|A e|A k IH|A conn k IH|A key k IH|A k IH|A k IH|A s args k IH|A uri o k IH
    |A p k IH|A event fn IHfn k IH|A port cb IHcb k IH|A child IHc k IH|A code];
    intros handler w; simpl; auto.
  destruct (run child w) as [w' [u|e|t|code]]; simpl; auto.
Qed.

(** A cached handle answers [connectDB] on the spot and leaves the
    process as it was. *)
Lemma connectDB_cached (w : World) (conn : Handle) :
  cachedConnection w = Some conn →
  run Serverless.connectDB w = (w, Done conn).
Proof. intros H. unfold Serverless.connectDB. simpl. by rewrite H. Qed.

(** Without one, it calls the driver once and waits. *)
Lemma connectDB_uncached (w : World) :
  cachedConnection w = None →
  ∃ k, run Serverless.connectDB w =
         (emit (EvConnect (env w !! "MONGODB_ATLAS_URI") Serverless.options (next_promise w))
               (fresh_promise w),
          Blocked (MkParked (next_promise w) k))
       ∧ (∀ conn w', run (k (Fulfilled conn)) w' =
            (emit (EvConsole Out
                     [Text ("MongoDB Atlas Connected: " ++ show (host (connection w')))])
                  (set_cached conn w'),
             Done conn))
       ∧ (∀ e w', run (k (Rejected e)) w' =
            (emit (EvConsole Err [Text "MongoDB connection error:"; Thrown e]) w',
             Failed e)).
Proof.
  intros H. unfold Serverless.connectDB. simpl. rewrite H. simpl.
  eexists. split; [reflexivity|]. split; intros; reflexivity.
Qed.

Lemma exec_cons {A : Type} (l : Loop A) (i : Input A) (inputs : list (Input A)) :
  exec l (i :: inputs) = exec (step l i) inputs.
Proof. reflexivity. Qed.

Lemma exec_app {A : Type} (l : Loop A) (xs ys : list (Input A)) :
  exec l (xs ++ ys) = exec (exec l xs) ys.
Proof. apply foldl_app. Qed.

(** Once the process has exited nothing is handled any more. *)
Lemma exec_exited {A : Type} (l : Loop A) (inputs : list (Input A)) (code : Z) :
  exited (world l) = Some code → exec l inputs = l.
Proof.
  intros H. induction inputs as [|i inputs IH]; [done|].
  rewrite exec_cons. unfold step. by rewrite H.
Qed.

Lemma step_call {A : Type} (l : Loop A) (id : nat) (m : Prog A) :
  exited (world l) = None →
  step l (Call id m) = land id (run m (world l)) l.
Proof. intros H. unfold step. by rewrite H. Qed.

Lemma step_settle {A : Type} (l : Loop A) (p : Promise) (s : Settled) (c : Connection) :
  exited (world l) = None →
  step l (Settle p s c)
  = wake p s (parked l)
      (MkLoop (wake_background p s (background (world l))
                 (set_background [] (set_connection c (world l))))
              [] (finished l)).
Proof. intros H. unfold step. by rewrite H. Qed.

Lemma step_emit {A : Type} (l : Loop A) (event : string) (arg : option Error)
    (c : Connection) :
  exited (world l) = None →
  step l (Emit event arg c)
  = MkLoop (fire event arg (listeners (world l)) (set_connection c (world l)))
           (parked l) (finished l).
Proof. intros H. unfold step. by rewrite H. Qed.

Lemma step_call_cached (w : World) (conn : Handle) (id : nat)
    (ps : list (nat * Parked Handle)) (fs : list (nat * Paused Handle)) :
  cachedConnection w = Some conn →
  exited w = None →
  step (MkLoop w ps fs) (Call id Serverless.connectDB)
  = MkLoop w ps (fs ++ [(id, Done conn)]).
Proof.
  intros Hc He. unfold step. cbn [world]. rewrite He.
  by rewrite (connectDB_cached _ _ Hc).
Qed.

Lemma calls_cached (w : World) (conn : Handle) (ids : list nat)
    (ps : list (nat * Parked Handle)) (fs : list (nat * Paused Handle)) :
  cachedConnection w = Some conn →
  exited w = None →
  exec (MkLoop w ps fs) (map (λ id, Call id Serverless.connectDB) ids)
  = MkLoop w ps (fs ++ map (λ id, (id, Done conn)) ids).
Proof.
  intros Hc He. revert fs.
  induction ids as [|id ids IH]; intros fs.
  - cbn [map]. by rewrite app_nil_r.
  - cbn [map]. rewrite exec_cons, (step_call_cached _ _ _ _ _ Hc He), IH.
    by rewrite <- app_assoc.
Qed.

(** C8.  Once a handle is cached and the connection is Connected,
    [connectDB] is idempotent: a call returns the cached handle on the
    spot, without suspending and without changing anything in the process
    (no call of [mongoose.connect], no log, the cache as it was), and so
    does every call of any further series of calls. *)
Theorem C8_connectDB_idempotent_once_connected
    (w : World) (conn : Handle) (ids : list nat) :
  cachedConnection w = Some conn →
  readyState (connection w) = CONNECTED →
  exited w = None →
  run Serverless.connectDB w = (w, Done conn)
  ∧ exec (boot w) (map (λ id, Call id Serverless.connectDB) ids)
    = MkLoop w [] (map (λ id, (id, Done conn)) ids).
Proof.
  intros Hc _ He. split.
  - by apply connectDB_cached.
  - unfold boot. by rewrite (calls_cached _ _ _ _ _ Hc He).
Qed.

Lemma C8_witness :
  run Serverless.connectDB warm = (warm, Done 7%nat)
  ∧ exec (boot warm) (map (λ id, Call id Serverless.connectDB) [1; 2; 3]%nat)
    = MkLoop warm [] (map (λ id, (id, Done 7%nat)) [1; 2; 3]%nat).
Proof.
  apply (C8_connectDB_idempotent_once_connected warm 7 [1; 2; 3]%nat); reflexivity.
Defined.

(** ** Going down the stack *)

Section Stack.

Context (X : Express) (req : Request).
Hypothesis through : transparent X req.

Lemma dispatch_use_ext (e : External) (rest : list Layer) (res : Res) :
  dispatch X (Use (ext X e) :: rest) None req res = dispatch X rest None req res.
Proof. cbn. by rewrite through. Qed.

Lemma dispatch_mount_ext (mount : string) (e : External) (rest : list Layer) (res : Res) :
  dispatch X (UseAt mount (ext X e) :: rest) None req res = dispatch X rest None req res.
Proof. cbn. destruct (mounted X mount req); cbn; [by rewrite through|done]. Qed.

Lemma dispatch_skip_error_handler (h : Error → Handler) (rest : list Layer) (res : Res) :
  dispatch X (UseError h :: rest) None req res = dispatch X rest None req res.
Proof. reflexivity. Qed.

Lemma dispatch_route_missed (route : string) (h : Handler) (rest : list Layer) (res : Res) :
  routed X "GET" route req = false →
  dispatch X (Get route h :: rest) None req res = dispatch X rest None req res.
Proof. intros H. cbn. by rewrite H. Qed.

Lemma dispatch_images_headers (mount : string) (rest : list Layer) (res : Res) :
  dispatch X (UseAt mount LongRunning.images_headers :: rest) None req res
  = dispatch X rest None req
      (if mounted X mount req
       then res_setHeader "Cross-Origin-Resource-Policy" "cross-origin"
              (res_setHeader "Access-Control-Allow-Origin" "http://localhost:3000" res)
       else res).
Proof. cbn. by destruct (mounted X mount req). Qed.

End Stack.

Ltac descend through :=
  repeat first
    [ rewrite (dispatch_use_ext _ _ through)
    | rewrite (dispatch_mount_ext _ _ through)
    | rewrite dispatch_images_headers
    | rewrite dispatch_skip_error_handler ].

(** ** The health report *)

Lemma long_running_health_run (w : World) (req : Request) (res : Res) :
  run (LongRunning.health req res) w =
  (w, Done (Sent (res_json
     (VObj [("status", VStr "OK");
            ("message", VStr "Server is running");
            ("database", VObj
               [("status", of_option (dbStatusText !! readyState (connection w)));
                ("host", host (connection w));
                ("name", Mongoose.name (connection w))]);
            ("timestamp", VStr (clock w))])
     res))).
Proof. reflexivity. Qed.

Lemma serverless_health_run (w : World) (req : Request) (res : Res) :
  run (Serverless.health req res) w =
  (w, Done (Sent (res_json
     (VObj [("status", VStr "OK");
            ("message", VStr "Server is running on Vercel");
            ("database", VObj
               [("status", of_option (dbStatusText !! readyState (connection w)));
                ("host", Js.or (host (connection w)) (VStr "Not connected"));
                ("name", Js.or (Mongoose.name (connection w)) (VStr "Not connected"))]);
            ("timestamp", VStr (clock w));
            ("serverless", VBool true)])
     res))).
Proof. reflexivity. Qed.

Section Serving.

Context (X : Express) (req : Request).
Hypothesis through : transparent X req.

Lemma run_dispatch_use (h : Handler) (rest : list Layer) (res : Res) (w : World) :
  run (dispatch X (Use h :: rest) None req res) w
  = and_then (onward X rest req)
      (or_catch (λ e, Ret (NextErr e res)) (run (h req res) w)).
Proof. cbn [dispatch applies]. by rewrite run_bind, run_try_catch. Qed.

Lemma run_dispatch_get (route : string) (h : Handler) (rest : list Layer)
    (res : Res) (w : World) :
  routed X "GET" route req = true →
  run (dispatch X (Get route h :: rest) None req res) w
  = and_then (onward X rest req)
      (or_catch (λ e, Ret (NextErr e res)) (run (h req res) w)).
Proof. intros H. cbn [dispatch applies]. by rewrite H, run_bind, run_try_catch. Qed.

Lemma long_running_descent (w : World) :
  LongRunning.serve X w req
  = dispatch X [Get "/api/health" LongRunning.health;
                UseError LongRunning.error_handler;
                Use LongRunning.not_found] None req (past_images X req).
Proof. unfold LongRunning.serve, LongRunning.app. by descend through. Qed.

Lemma long_running_serve_health (w : World) :
  routed X "GET" "/api/health" req = true →
  run (LongRunning.serve X w req) w
  = (w, Done (Some (res_json
       (VObj [("status", VStr "OK");
              ("message", VStr "Server is running");
              ("database", VObj
                 [("status", of_option (dbStatusText !! readyState (connection w)));
                  ("host", host (connection w));
                  ("name", Mongoose.name (connection w))]);
              ("timestamp", VStr (clock w))])
       (past_images X req)))).
Proof.
  intros H. rewrite long_running_descent, (run_dispatch_get _ _ _ _ _ H).
  by rewrite long_running_health_run.
Qed.

Lemma long_running_serve_not_found (w : World) :
  routed X "GET" "/api/health" req = false →
  run (LongRunning.serve X w req) w
  = (w, Done (Some (res_json (VObj [("message", VStr "Route not found")])
                             (res_status 404 (past_images X req))))).
Proof.
  intros H. rewrite long_running_descent.
  rewrite (dispatch_route_missed _ _ _ _ _ _ H), dispatch_skip_error_handler.
  by rewrite run_dispatch_use.
Qed.

Lemma serverless_descent :
  Serverless.serve X req
  = dispatch X [Use Serverless.connect_middleware;
                UseAt "/api/blogs" (ext X (router "../routes/blogRoutes"));
                UseAt "/api/projects" (ext X (router "../routes/projectRoutes"));
                UseAt "/api/services" (ext X (router "../routes/serviceRoutes"));
                UseAt "/api/teams" (ext X (router "../routes/teamRoutes"));
                Get "/api/health" Serverless.health;
                UseError Serverless.error_handler;
                Use Serverless.not_found] None req fresh_res.
Proof. unfold Serverless.serve, Serverless.app. by descend through. Qed.

(** What the serverless stack does behind the connection middleware. *)
Lemma serverless_routes (res : Res) (w : World) :
  run (dispatch X
         [UseAt "/api/blogs" (ext X (router "../routes/blogRoutes"));
          UseAt "/api/projects" (ext X (router "../routes/projectRoutes"));
          UseAt "/api/services" (ext X (router "../routes/serviceRoutes"));
          UseAt "/api/teams" (ext X (router "../routes/teamRoutes"));
          Get "/api/health" Serverless.health;
          UseError Serverless.error_handler;
          Use Serverless.not_found] None req res) w
  = if routed X "GET" "/api/health" req
    then (w, Done (Some (res_json
            (VObj [("status", VStr "OK");
                   ("message", VStr "Server is running on Vercel");
                   ("database", VObj
                      [("status", of_option (dbStatusText !! readyState (connection w)));
                       ("host", Js.or (host (connection w)) (VStr "Not connected"));
                       ("name", Js.or (Mongoose.name (connection w))
                                      (VStr "Not connected"))]);
                   ("timestamp", VStr (clock w));
                   ("serverless", VBool true)])
            res)))
    else (w, Done (Some (res_json
            (VObj [("message", VStr "Route not found");
                   ("path", VStr (originalUrl req))])
            (res_status 404 res)))).
Proof.
  descend through.
  destruct (routed X "GET" "/api/health" req) eqn:H.
  - rewrite (run_dispatch_get _ _ _ _ _ H). by rewrite serverless_health_run.
  - rewrite (dispatch_route_missed _ _ _ _ _ _ H), dispatch_skip_error_handler.
    by rewrite run_dispatch_use.
Qed.

Lemma connect_middleware_cached (res : Res) (w : World) (conn : Handle) :
  cachedConnection w = Some conn →
  run (Serverless.connect_middleware req res) w = (w, Done (Next res)).
Proof.
  intros H. unfold Serverless.connect_middleware.
  by rewrite run_try_catch, run_bind, (connectDB_cached _ _ H).
Qed.

Lemma connect_middleware_uncached (res : Res) (w : World) :
  cachedConnection w = None →
  ∃ k, run (Serverless.connect_middleware req res) w =
         (emit (EvConnect (env w !! "MONGODB_ATLAS_URI") Serverless.options
                          (next_promise w))
               (fresh_promise w),
          Blocked (MkParked (next_promise w) k))
       ∧ (∀ conn w', run (k (Fulfilled conn)) w' =
            (emit (EvConsole Out
                     [Text ("MongoDB Atlas Connected: " ++ show (host (connection w')))])
                  (set_cached conn w'),
             Done (Next res)))
       ∧ (∀ e w', run (k (Rejected e)) w' =
            (emit (EvConsole Err [Text "MongoDB connection error:"; Thrown e]) w',
             Done (Sent (res_json
               (VObj [("message", VStr "Database connection failed");
                      ("error", VStr (message e))])
               (res_status 500 res))))).
Proof.
  intros H. destruct (connectDB_uncached w H) as (k & Hrun & Hok & Hko).
  unfold Serverless.connect_middleware.
  rewrite run_try_catch, run_bind, Hrun. cbn [and_then or_catch waits_for resume].
  eexists. split; [reflexivity|]. split.
  - intros conn w'. by rewrite run_try_catch, run_bind, Hok.
  - intros e w'. by rewrite run_try_catch, run_bind, Hko.
Qed.

Lemma serverless_serve_cached (w : World) (conn : Handle) :
  cachedConnection w = Some conn →
  run (Serverless.serve X req) w
  = run (dispatch X
           [UseAt "/api/blogs" (ext X (router "../routes/blogRoutes"));
            UseAt "/api/projects" (ext X (router "../routes/projectRoutes"));
            UseAt "/api/services" (ext X (router "../routes/serviceRoutes"));
            UseAt "/api/teams" (ext X (router "../routes/teamRoutes"));
            Get "/api/health" Serverless.health;
            UseError Serverless.error_handler;
            Use Serverless.not_found] None req fresh_res) w.
Proof.
  intros H. rewrite serverless_descent, run_dispatch_use.
  by rewrite (connect_middleware_cached _ _ _ H).
Qed.

End Serving.

(** C7.  In every state of the process the read behind [/api/health]
    answers on the spot and leaves the process exactly as it found it, in
    both entry points: nothing is added to the trace (no call of
    [mongoose.connect], no other I/O), and the connection, the cached
    handle and the parked calls are untouched. *)
Theorem C7_health_read_has_no_effect (w : World) (req : Request) (res : Res) :
  (∃ r, run (LongRunning.health req res) w = (w, Done (Sent r)))
  ∧ (∃ r, run (Serverless.health req res) w = (w, Done (Sent r)))
  ∧ attempts (run (LongRunning.health req res) w).1 = attempts w
  ∧ attempts (run (Serverless.health req res) w).1 = attempts w
  ∧ connection (run (LongRunning.health req res) w).1 = connection w
  ∧ connection (run (Serverless.health req res) w).1 = connection w.
Proof.
  rewrite long_running_health_run, serverless_health_run. cbn [fst].
  repeat split; eauto.
Qed.

(** C10.  In the long-running entry point a request that reaches the
    [/api/health] route is answered 200 with top-level status "OK" in
    every state of the connection; the state of the database shows only in
    the nested [database.status], which reads "disconnected" when the
    connection is Disconnected. *)
Theorem C10_long_running_health_always_ok (X : Express) (w : World) (req : Request) :
  transparent X req →
  routed X "GET" "/api/health" req = true →
  ∃ r, run (LongRunning.serve X w req) w = (w, Done (Some r))
       ∧ status r = 200
       ∧ get "status" (body r) = VStr "OK"
       ∧ database_status r = of_option (dbStatusText !! readyState (connection w))
       ∧ (readyState (connection w) = DISCONNECTED →
          database_status r = VStr "disconnected").
Proof.
  intros through Hroute.
  rewrite (long_running_serve_health X req through w Hroute).
  eexists. split; [reflexivity|]. repeat split.
  - unfold past_images. by destruct (mounted X "/images" req).
  - intros ->. reflexivity.
Qed.

Lemma C10_witness :
  ∃ r, run (LongRunning.serve plain (set_connection lost cold) get_health)
           (set_connection lost cold)
       = (set_connection lost cold, Done (Some r))
       ∧ status r = 200
       ∧ get "status" (body r) = VStr "OK"
       ∧ database_status r
         = of_option (dbStatusText !! readyState (connection (set_connection lost cold)))
       ∧ (readyState (connection (set_connection lost cold)) = DISCONNECTED →
          database_status r = VStr "disconnected").
Proof.
  apply (C10_long_running_health_always_ok plain (set_connection lost cold) get_health).
  - intros e res. reflexivity.
  - reflexivity.
Defined.

(** ** Requests that no route answers *)

(** C9, as stated, fails in the long-running entry point: the 404 for
    [GET /nowhere?x=1] has the body [{message: 'Route not found'}], which
    echoes neither the URL nor the path of the request. *)
Lemma C9_long_running_404_has_no_path :
  ¬ echoes_path get_nowhere (answer (run (LongRunning.serve plain cold get_nowhere) cold)).
Proof.
  intros (r & Hr & _ & Hecho).
  vm_compute in Hr. injection Hr as <-.
  destruct Hecho as [[k Hk]|[k Hk]]; cbn in Hk;
    destruct (String.eqb k "message"); discriminate.
Qed.

(** C9, amended.  A request that matches no route is answered 404 by the
    fallback handler.  In the serverless entry point, where it gets there
    once the connection middleware has let it through (here: a handle is
    cached), the body is [{message: 'Route not found', path:
    req.originalUrl}]; in the long-running entry point the body is
    [{message: 'Route not found'}] alone. *)
Theorem C9_unmatched_route_404 (X : Express) (w : World) (req : Request) (conn : Handle) :
  transparent X req →
  routed X "GET" "/api/health" req = false →
  cachedConnection w = Some conn →
  run (Serverless.serve X req) w
  = (w, Done (Some (MkResponse 404 []
        (VObj [("message", VStr "Route not found");
               ("path", VStr (originalUrl req))]))))
  ∧ echoes_path req (answer (run (Serverless.serve X req) w))
  ∧ run (LongRunning.serve X w req) w
    = (w, Done (Some (MkResponse 404 (headers (past_images X req))
          (VObj [("message", VStr "Route not found")])))).
Proof.
  intros through Hroute Hc.
  assert (run (Serverless.serve X req) w
          = (w, Done (Some (MkResponse 404 []
                (VObj [("message", VStr "Route not found");
                       ("path", VStr (originalUrl req))]))))) as Hs.
  { rewrite (serverless_serve_cached X req through w conn Hc).
    rewrite (serverless_routes X req through). by rewrite Hroute. }
  split; [exact Hs|]. split.
  - rewrite Hs. eexists. split; [reflexivity|]. split; [reflexivity|].
    left. by exists "path".
  - by rewrite (long_running_serve_not_found X req through w Hroute).
Qed.

Lemma C9_witness :
  run (Serverless.serve plain get_nowhere) warm
  = (warm, Done (Some (MkResponse 404 []
        (VObj [("message", VStr "Route not found");
               ("path", VStr "/nowhere?x=1")]))))
  ∧ echoes_path get_nowhere (answer (run (Serverless.serve plain get_nowhere) warm))
  ∧ run (LongRunning.serve plain warm get_nowhere) warm
    = (warm, Done (Some (MkResponse 404 (headers (past_images plain get_nowhere))
          (VObj [("message", VStr "Route not found")])))).
Proof.
  apply (C9_unmatched_route_404 plain warm get_nowhere 7).
  - intros e res. reflexivity.
  - reflexivity.
  - reflexivity.
Defined.

(** ** Requests during which establishment fails *)

(** The serverless stack on a cold instance: the request waits for the
    driver; a rejection is answered 500 by the connection middleware, a
    fulfilment caches the handle and goes on to the routes. *)
Lemma serverless_serve_uncached (X : Express) (req : Request) (w : World) :
  transparent X req →
  cachedConnection w = None →
  ∃ k, run (Serverless.serve X req) w =
         (emit (EvConnect (env w !! "MONGODB_ATLAS_URI") Serverless.options (next_promise w))
               (fresh_promise w),
          Blocked (MkParked (next_promise w) k))
       ∧ (∀ e w', run (k (Rejected e)) w' =
            (emit (EvConsole Err [Text "MongoDB connection error:"; Thrown e]) w',
             Done (Some (MkResponse 500 []
               (VObj [("message", VStr "Database connection failed");
                      ("error", VStr (message e))])))))
       ∧ (∀ conn w', routed X "GET" "/api/health" req = false →
            run (k (Fulfilled conn)) w' =
            (emit (EvConsole Out
                     [Text ("MongoDB Atlas Connected: " ++ show (host (connection w')))])
                  (set_cached conn w'),
             Done (Some (MkResponse 404 []
               (VObj [("message", VStr "Route not found");
                      ("path", VStr (originalUrl req))]))))).
Proof.
  intros through Hc.
  destruct (connect_middleware_uncached req fresh_res w Hc) as (k & Hrun & Hok & Hko).
  rewrite (serverless_descent X req through), run_dispatch_use, Hrun.
  cbn [and_then or_catch waits_for resume].
  eexists. split; [reflexivity|]. split.
  - intros e w'. by rewrite run_bind, run_try_catch, Hko.
  - intros conn w' Hroute. rewrite run_bind, run_try_catch, Hok.
    cbn [and_then or_catch onward].
    rewrite (serverless_routes X req through). by rewrite Hroute.
Qed.

(** A request on a cold instance whose establishment the driver rejects. *)
Lemma serverless_request_rejected
    (X : Express) (w : World) (req : Request) (id : nat) (e : Error) (c : Connection) :
  transparent X req →
  cachedConnection w = None →
  exited w = None →
  background w = [] →
  exec (boot w) [Call id (Serverless.serve X req); Settle (next_promise w) (Rejected e) c]
  = MkLoop
      (emit (EvConsole Err [Text "MongoDB connection error:"; Thrown e])
         (set_background [] (set_connection c
            (emit (EvConnect (env w !! "MONGODB_ATLAS_URI") Serverless.options
                             (next_promise w))
                  (fresh_promise w)))))
      []
      [(id, Done (Some (MkResponse 500 []
              (VObj [("message", VStr "Database connection failed");
                     ("error", VStr (message e))]))))].
Proof.
  intros through Hc He Hb.
  destruct (serverless_serve_uncached X req w through Hc) as (k & Hrun & Hko & _).
  unfold boot. rewrite exec_cons, step_call by exact He.
  cbn [world]. rewrite Hrun. cbn [land parked finished app].
  rewrite exec_cons, step_settle by exact He.
  cbn [world parked finished background emit fresh_promise]. rewrite Hb.
  cbn [wake_background wake world exited set_background set_connection emit
       fresh_promise waits_for resume].
  rewrite He, Nat.eqb_refl, Hko. reflexivity.
Qed.

(** C3, as stated, fails: when the driver refuses the connection during
    [GET /api/health] on a cold instance, the 500 carries the message of
    the driver's error in its [error] property. *)
Lemma C3_failure_discloses_cause :
  ¬ generic_failure refused
      (outcome 1 (finished
         (exec (boot cold)
            [Call 1%nat (Serverless.serve plain get_health);
             Settle 0%nat (Rejected refused) never_connected]))).
Proof.
  intros (r & Hr & _ & Hgeneric).
  vm_compute in Hr. injection Hr as <-.
  apply Hgeneric. by exists "error".
Qed.

(** C3, amended.  In the serverless entry point a request during which
    establishment fails is answered 500 with the body [{message:
    'Database connection failed', error: <the message of the error the
    driver failed with>}]; the process stays alive. *)
Theorem C3_failed_establishment_500
    (X : Express) (w : World) (req : Request) (id : nat) (e : Error) (c : Connection) :
  transparent X req →
  cachedConnection w = None →
  exited w = None →
  background w = [] →
  let l := exec (boot w)
             [Call id (Serverless.serve X req);
              Settle (next_promise w) (Rejected e) c] in
  finished l = [(id, Done (Some (MkResponse 500 []
                   (VObj [("message", VStr "Database connection failed");
                          ("error", VStr (message e))]))))]
  ∧ parked l = []
  ∧ exited (world l) = None
  ∧ cachedConnection (world l) = None.
Proof.
  intros through Hc He Hb l. subst l.
  rewrite (serverless_request_rejected X w req id e c through Hc He Hb).
  cbn. by rewrite Hc, He.
Qed.

Lemma C3_witness :
  let l := exec (boot cold)
             [Call 1%nat (Serverless.serve plain get_health);
              Settle (next_promise cold) (Rejected refused) never_connected] in
  finished l = [(1%nat, Done (Some (MkResponse 500 []
                   (VObj [("message", VStr "Database connection failed");
                          ("error", VStr (message refused))]))))]
  ∧ parked l = []
  ∧ exited (world l) = None
  ∧ cachedConnection (world l) = None.
Proof.
  apply (C3_failed_establishment_500 plain cold get_health 1 refused never_connected).
  - intros e res. reflexivity.
  - reflexivity.
  - reflexivity.
  - reflexivity.
Defined.

(** ** A missing connection string *)

Lemma long_running_connectDB_run (w : World) :
  ∃ k, run LongRunning.connectDB w =
         (emit (EvConnect (env w !! "MONGODB_ATLAS_URI") LongRunning.options (next_promise w))
               (fresh_promise w),
          Blocked (MkParked (next_promise w) k))
       ∧ (∀ conn w', run (k (Fulfilled conn)) w' =
            (emit (EvConsole Out [Text ("Database Name: " ++ show (Mongoose.name (connection w')))])
               (emit (EvConsole Out
                        [Text ("MongoDB Atlas Connected: " ++ show (host (connection w')))])
                     w'),
             Done tt))
       ∧ (∀ e w', run (k (Rejected e)) w' =
            (emit (EvExit 1)
               (set_exited 1
                  (emit (EvConsole Err [Text "MongoDB Atlas connection error:";
                                        Text (message e)])
                        w')),
             Halted 1)).
Proof.
  unfold LongRunning.connectDB. simpl.
  eexists. split; [reflexivity|]. split; intros; reflexivity.
Qed.

(** C4, as stated, fails: on a process whose environment has no
    [MONGODB_ATLAS_URI], [connectDB] does not fail at all on the spot, in
    either entry point: it has called [mongoose.connect] and waits for
    it. *)
Lemma C4_absent_uri_reaches_driver :
  env cold !! "MONGODB_ATLAS_URI" = None
  ∧ ¬ fails_fast cold (run Serverless.connectDB cold)
  ∧ ¬ fails_fast cold (run LongRunning.connectDB cold)
  ∧ attempts (run Serverless.connectDB cold).1 = 1%nat
  ∧ attempts (run LongRunning.connectDB cold).1 = 1%nat.
Proof.
  split; [reflexivity|].
  split; [intros (e & He & _); vm_compute in He; discriminate|].
  split; [intros (e & He & _); vm_compute in He; discriminate|].
  split; reflexivity.
Qed.

(** C4, amended.  With the connection string absent [connectDB] makes no
    check of its own: it calls [mongoose.connect] with an undefined URI
    and the options of its entry point, and waits for the driver.  If the
    driver rejects, the serverless [connectDB] logs the error and fails
    with that very error, and the long-running one logs its message and
    exits with code 1. *)
Theorem C4_absent_uri_is_left_to_the_driver (w : World) :
  env w !! "MONGODB_ATLAS_URI" = None →
  cachedConnection w = None →
  (∃ k, run Serverless.connectDB w =
          (emit (EvConnect None Serverless.options (next_promise w)) (fresh_promise w),
           Blocked (MkParked (next_promise w) k))
        ∧ ∀ e w', run (k (Rejected e)) w' =
            (emit (EvConsole Err [Text "MongoDB connection error:"; Thrown e]) w',
             Failed e))
  ∧ (∃ k, run LongRunning.connectDB w =
          (emit (EvConnect None LongRunning.options (next_promise w)) (fresh_promise w),
           Blocked (MkParked (next_promise w) k))
        ∧ ∀ e w', run (k (Rejected e)) w' =
            (emit (EvExit 1)
               (set_exited 1
                  (emit (EvConsole Err [Text "MongoDB Atlas connection error:";
                                        Text (message e)])
                        w')),
             Halted 1)).
Proof.
  intros Huri Hc. split.
  - destruct (connectDB_uncached w Hc) as (k & Hrun & _ & Hko).
    rewrite Huri in Hrun. eauto.
  - destruct (long_running_connectDB_run w) as (k & Hrun & _ & Hko).
    rewrite Huri in Hrun. eauto.
Qed.

Lemma C4_witness :
  (∃ k, run Serverless.connectDB cold =
          (emit (EvConnect None Serverless.options (next_promise cold)) (fresh_promise cold),
           Blocked (MkParked (next_promise cold) k))
        ∧ ∀ e w', run (k (Rejected e)) w' =
            (emit (EvConsole Err [Text "MongoDB connection error:"; Thrown e]) w',
             Failed e))
  ∧ (∃ k, run LongRunning.connectDB cold =
          (emit (EvConnect None LongRunning.options (next_promise cold)) (fresh_promise cold),
           Blocked (MkParked (next_promise cold) k))
        ∧ ∀ e w', run (k (Rejected e)) w' =
            (emit (EvExit 1)
               (set_exited 1
                  (emit (EvConsole Err [Text "MongoDB Atlas connection error:";
                                        Text (message e)])
                        w')),
             Halted 1)).
Proof.
  apply (C4_absent_uri_is_left_to_the_driver cold); reflexivity.
Defined.

(** ** A connection lost behind the cache *)

(** The serverless entry point registers no listener: a connection event
    changes what [mongoose.connection] reads, and nothing else. *)
Lemma step_emit_unheard {A : Type} (l : Loop A) (event : string) (arg : option Error)
    (c : Connection) :
  exited (world l) = None →
  listeners (world l) = [] →
  step l (Emit event arg c) = MkLoop (set_connection c (world l)) (parked l) (finished l).
Proof. intros He Hl. rewrite step_emit by exact He. by rewrite Hl. Qed.

(** C2, as stated, fails: on a warm instance whose connection the driver
    then reports lost, the next [connectDB] does not go to the driver and
    is answered with the handle cached before the loss. *)
Lemma C2_stale_handle_is_returned :
  readyState (connection (world
    (exec (boot warm) [Emit "disconnected" None lost; Call 1%nat Serverless.connectDB])))
  = DISCONNECTED
  ∧ ¬ refreshes 7 warm
        (exec (boot warm) [Emit "disconnected" None lost; Call 1%nat Serverless.connectDB])
        1.
Proof.
  split; [reflexivity|].
  intros [Hattempts _]. vm_compute in Hattempts. discriminate.
Qed.

(** C2, amended.  Nothing updates the cache when the connection is lost.
    In the serverless entry point a connection event of the driver leaves
    [cachedConnection] as it was, and the next [connectDB] returns the
    handle cached before the loss without calling [mongoose.connect]; in
    the long-running entry point the listener of 'disconnected' writes one
    line to the console and changes nothing else. *)
Theorem C2_lost_connection_keeps_cached_handle
    (w : World) (conn : Handle) (event : string) (arg : option Error)
    (c : Connection) (id : nat) :
  cachedConnection w = Some conn →
  exited w = None →
  listeners w = [] →
  exec (boot w) [Emit event arg c; Call id Serverless.connectDB]
  = MkLoop (set_connection c w) [] [(id, Done conn)]
  ∧ cachedConnection (set_connection c w) = Some conn
  ∧ attempts (set_connection c w) = attempts w
  ∧ fire "disconnected" None (listeners (up cold)) (set_connection c (up cold))
    = emit (EvConsole Out [Text "Mongoose disconnected from MongoDB Atlas"])
           (set_connection c (up cold)).
Proof.
  intros Hc He Hl. split; [|split; [exact Hc|split; [reflexivity|by vm_compute]]].
  unfold boot. rewrite exec_cons, step_emit_unheard by assumption.
  cbn [world parked finished].
  rewrite exec_cons, (step_call_cached _ conn) by assumption.
  reflexivity.
Qed.

Lemma C2_witness :
  exec (boot warm) [Emit "disconnected" None lost; Call 1%nat Serverless.connectDB]
  = MkLoop (set_connection lost warm) [] [(1%nat, Done 7%nat)]
  ∧ cachedConnection (set_connection lost warm) = Some 7%nat
  ∧ attempts (set_connection lost warm) = attempts warm
  ∧ fire "disconnected" None (listeners (up cold)) (set_connection lost (up cold))
    = emit (EvConsole Out [Text "Mongoose disconnected from MongoDB Atlas"])
           (set_connection lost (up cold)).
Proof.
  apply (C2_lost_connection_keeps_cached_handle warm 7 "disconnected" None lost 1);
    by vm_compute.
Defined.

(** ** Calls that overlap on a cold instance *)

Lemma attempts_emit_connect (w : World) (uri : option string) (o : ConnectOptions)
    (p : Promise) :
  attempts (emit (EvConnect uri o p) w) = S (attempts w).
Proof.
  unfold attempts, connects. cbn [trace emit].
  rewrite filter_app, length_app.
  change (filter is_connect [EvConnect uri o p]) with [EvConnect uri o p].
  cbn [length]. lia.
Qed.

(** Every call made before the driver has answered finds the cache empty
    and goes to the driver itself. *)
Lemma overlapping_calls (ids : list nat) (w : World)
    (ps : list (nat * Parked Handle)) (fs : list (nat * Paused Handle)) :
  cachedConnection w = None →
  exited w = None →
  let l := exec (MkLoop w ps fs) (map (λ id, Call id Serverless.connectDB) ids) in
  attempts (world l) = (attempts w + length ids)%nat
  ∧ length (parked l) = (length ps + length ids)%nat
  ∧ finished l = fs
  ∧ cachedConnection (world l) = None.
Proof.
  revert w ps. induction ids as [|id ids IH]; intros w ps Hc He; cbn zeta.
  - cbn. repeat split; try lia; done.
  - cbn [map]. rewrite exec_cons, step_call by exact He. cbn [world].
    destruct (connectDB_uncached w Hc) as (k & -> & _). cbn [land parked finished].
    edestruct (IH (emit (EvConnect (env w !! "MONGODB_ATLAS_URI") Serverless.options
                                   (next_promise w)) (fresh_promise w))
                  (ps ++ [(id, MkParked (next_promise w) k)]))
      as (Ha & Hp & Hf & Hcache); [exact Hc|exact He|].
    rewrite Ha, Hp, Hf, Hcache, attempts_emit_connect, length_app. cbn [length].
    change (attempts (fresh_promise w)) with (attempts w).
    repeat split; lia.
Qed.

(** C1.  The cache holds the handle only once the driver has answered, so
    it does not cover calls that overlap.  Two calls of [connectDB] made on
    a cold instance before the driver answers make two calls of
    [mongoose.connect]; each caller is given the outcome of its own call:
    different handles when the driver hands out different ones, and a
    handle for one and a failure for the other when the driver fulfils one
    call and rejects the other. *)
Theorem C1_overlapping_calls_each_go_to_the_driver :
  let called :=
    exec (boot cold) [Call 1%nat Serverless.connectDB; Call 2%nat Serverless.connectDB] in
  attempts (world called) = 2%nat
  ∧ map fst (parked called) = [1; 2]%nat
  ∧ (let l := exec called [Settle 0%nat (Fulfilled 10%nat) atlas;
                           Settle 1%nat (Fulfilled 11%nat) atlas] in
     outcome 1 (finished l) = Some (Done 10%nat)
     ∧ outcome 2 (finished l) = Some (Done 11%nat)
     ∧ ¬ same_outcome [1; 2]%nat l)
  ∧ (let l := exec called [Settle 0%nat (Fulfilled 10%nat) atlas;
                           Settle 1%nat (Rejected refused) lost] in
     outcome 1 (finished l) = Some (Done 10%nat)
     ∧ outcome 2 (finished l) = Some (Failed refused)
     ∧ ¬ same_outcome [1; 2]%nat l).
Proof.
  cbn zeta. split; [by vm_compute|]. split; [by vm_compute|].
  split.
  - split; [by vm_compute|]. split; [by vm_compute|].
    intros (r & Hr).
    pose proof (Hr 1%nat ltac:(set_solver)) as H1.
    pose proof (Hr 2%nat ltac:(set_solver)) as H2.
    vm_compute in H1, H2. congruence.
  - split; [by vm_compute|]. split; [by vm_compute|].
    intros (r & Hr).
    pose proof (Hr 1%nat ltac:(set_solver)) as H1.
    pose proof (Hr 2%nat ltac:(set_solver)) as H2.
    vm_compute in H1, H2. congruence.
Qed.

(** ** Starting the long-running server *)

(** The script: one call of the driver, then the listeners, then
    [app.listen], and [connectDB] left waiting in the background. *)
Lemma startup (w : World) :
  ∃ k, run LongRunning.main w = (up w, Done tt)
       ∧ trace (up w)
         = trace w ++ [EvConnect (env w !! "MONGODB_ATLAS_URI") LongRunning.options
                                 (next_promise w);
                       EvListen (Js.or (of_option (env w !! "PORT")) (VNum 5000))]
       ∧ background (up w) = background w ++ [MkParked (next_promise w) k]
       ∧ listening (up w) = true
       ∧ exited (up w) = exited w
       ∧ env (up w) = env w
       ∧ (∀ e w', run (k (Rejected e)) w' =
            (emit (EvExit 1)
               (set_exited 1
                  (emit (EvConsole Err [Text "MongoDB Atlas connection error:";
                                        Text (message e)])
                        w')),
             Halted 1)).
Proof.
  unfold up, LongRunning.main, LongRunning.connectDB. simpl.
  eexists. split; [reflexivity|].
  split; [by rewrite <- app_assoc|].
  repeat split.
Qed.

(** Once the driver rejects the startup call the process is gone. *)
Lemma startup_rejected {A : Type} (w : World) (ps : list (nat * Parked A))
    (fs : list (nat * Paused A)) (e : Error) (c : Connection) :
  exited w = None →
  background w = [] →
  let l := step (MkLoop (up w) ps fs) (Settle (next_promise w) (Rejected e) c) in
  exited (world l) = Some 1
  ∧ finished l = fs
  ∧ trace (world l)
    = trace (up w) ++ [EvConsole Err [Text "MongoDB Atlas connection error:";
                                      Text (message e)];
                       EvExit 1].
Proof.
  intros He Hb l. subst l.
  destruct (startup w) as (k & _ & _ & Hbg & _ & Hex & _ & Hko).
  rewrite step_settle by (cbn [world]; congruence).
  cbn [world parked finished]. rewrite Hbg, Hb. cbn [app wake_background].
  cbn [exited set_background set_connection waits_for resume].
  rewrite Hex, He, Nat.eqb_refl, Hko.
  cbn [wake_background].
  destruct ps as [|[id t] ps]; cbn; rewrite <- app_assoc; done.
Qed.

(** C5, as stated, fails: after the script has run on a fresh process the
    server listens while [connectDB] still waits for the driver, and a
    health check made before the driver refuses the connection has been
    answered by the time the process exits. *)
Lemma C5_listens_while_connecting :
  ¬ established_before_listening (up cold)
  ∧ ¬ never_served
        (exec (boot (up cold))
           [Call 1%nat (LongRunning.serve plain (up cold) get_health);
            Settle 0%nat (Rejected refused) never_connected]).
Proof.
  split.
  - intros H. specialize (H eq_refl). vm_compute in H. discriminate.
  - intros H. assert (Hex : exited (world
        (exec (boot (up cold))
           [Call 1%nat (LongRunning.serve plain (up cold) get_health);
            Settle 0%nat (Rejected refused) never_connected])) ≠ None)
      by (vm_compute; discriminate).
    specialize (H Hex). vm_compute in H. discriminate.
Qed.

(** C5, amended.  In the long-running entry point [connectDB()] is called
    exactly once at startup, before [app.listen], and is not awaited: the
    server listens while establishment is pending, and a request that
    arrives before the driver has answered is served.  When the driver
    then rejects, the process writes the error to the console and exits
    with code 1, after which nothing is handled. *)
Theorem C5_startup_listens_then_exits_on_failure
    (X : Express) (w : World) (req : Request) (id : nat) (e : Error) (c : Connection) :
  exited w = None →
  background w = [] →
  transparent X req →
  routed X "GET" "/api/health" req = true →
  attempts (up w) = S (attempts w)
  ∧ trace (up w)
    = trace w ++ [EvConnect (env w !! "MONGODB_ATLAS_URI") LongRunning.options
                            (next_promise w);
                  EvListen (Js.or (of_option (env w !! "PORT")) (VNum 5000))]
  ∧ listening (up w) = true
  ∧ (∃ k, background (up w) = [MkParked (next_promise w) k])
  ∧ (let l := exec (boot (up w))
                [Call id (LongRunning.serve X (up w) req);
                 Settle (next_promise w) (Rejected e) c] in
     (∃ r, finished l = [(id, Done (Some r))] ∧ status r = 200)
     ∧ exited (world l) = Some 1
     ∧ trace (world l)
       = trace (up w) ++ [EvConsole Err [Text "MongoDB Atlas connection error:";
                                         Text (message e)];
                          EvExit 1]
     ∧ ∀ inputs, exec l inputs = l).
Proof.
  intros He Hb through Hroute.
  destruct (startup w) as (k & _ & Htr & Hbg & Hli & Hex & _ & _).
  split.
  { unfold attempts, connects. rewrite Htr, filter_app, length_app.
    change (filter is_connect _) with
      [EvConnect (env w !! "MONGODB_ATLAS_URI") LongRunning.options (next_promise w)]
      at 2.
    cbn [length]. lia. }
  split; [exact Htr|]. split; [exact Hli|].
  split; [exists k; by rewrite Hbg, Hb|].
  cbn zeta. unfold boot.
  rewrite exec_cons, step_call by (cbn [world]; congruence).
  cbn [world]. rewrite (long_running_serve_health X req through (up w) Hroute).
  cbn [land parked finished app].
  rewrite exec_cons.
  destruct (startup_rejected w []
              [(id, Done (Some (res_json
                 (VObj [("status", VStr "OK");
                        ("message", VStr "Server is running");
                        ("database", VObj
                           [("status", of_option (dbStatusText !! readyState (connection (up w))));
                            ("host", host (connection (up w)));
                            ("name", Mongoose.name (connection (up w)))]);
                        ("timestamp", VStr (clock (up w)))])
                 (past_images X req))))] e c He Hb) as (Hx & Hf & Ht).
  change (exec ?l []) with l.
  split; [|split; [exact Hx|split; [exact Ht|]]].
  - rewrite Hf. eexists. split; [reflexivity|].
    unfold past_images. by destruct (mounted X "/images" req).
  - intros inputs. by apply (exec_exited _ _ 1).
Qed.

Lemma C5_witness :
  attempts (up cold) = S (attempts cold)
  ∧ trace (up cold)
    = trace cold ++ [EvConnect (env cold !! "MONGODB_ATLAS_URI") LongRunning.options
                               (next_promise cold);
                     EvListen (Js.or (of_option (env cold !! "PORT")) (VNum 5000))]
  ∧ listening (up cold) = true
  ∧ (∃ k, background (up cold) = [MkParked (next_promise cold) k])
  ∧ (let l := exec (boot (up cold))
                [Call 1%nat (LongRunning.serve plain (up cold) get_health);
                 Settle (next_promise cold) (Rejected refused) never_connected] in
     (∃ r, finished l = [(1%nat, Done (Some r))] ∧ status r = 200)
     ∧ exited (world l) = Some 1
     ∧ trace (world l)
       = trace (up cold) ++ [EvConsole Err [Text "MongoDB Atlas connection error:";
                                            Text (message refused)];
                             EvExit 1]
     ∧ ∀ inputs, exec l inputs = l).
Proof.
  apply (C5_startup_listens_then_exits_on_failure
           plain cold get_health 1 refused never_connected).
  - reflexivity.
  - reflexivity.
  - intros e res. reflexivity.
  - reflexivity.
Defined.

(** ** The health report after a failed start *)

Lemma or_not_connected_not_null (v : value) : Js.or v (VStr "Not connected") ≠ VNull.
Proof. unfold Js.or. destruct (truthy v) eqn:H; [|done]. by intros ->. Qed.

(** C6, as stated, fails.  In the long-running entry point the process
    has exited when establishment has failed, and a health check made then
    is answered nothing; in the serverless entry point a health check made
    after a failed first request is put through [connectDB] again and,
    with the driver still refusing, answered by the connection middleware,
    not by the health route. *)
Lemma C6_no_report_after_failed_start :
  ¬ reports_disconnected
      (outcome 2 (finished
         (exec (boot (up cold))
            [Settle 0%nat (Rejected refused) never_connected;
             Call 2%nat (LongRunning.serve plain (up cold) get_health)])))
  ∧ ¬ reports_disconnected
        (outcome 2 (finished
           (exec (boot cold)
              [Call 1%nat (Serverless.serve plain get_health);
               Settle 0%nat (Rejected refused) never_connected;
               Call 2%nat (Serverless.serve plain get_health);
               Settle 1%nat (Rejected refused) never_connected]))).
Proof.
  split.
  - intros (r & Hr & _). vm_compute in Hr. discriminate.
  - intros (r & Hr & Hs & _). vm_compute in Hr. injection Hr as <-.
    vm_compute in Hs. discriminate.
Qed.

(** C6, amended.  The health handlers never throw: run while the
    connection is Disconnected, the long-running one reports
    [database.status] "disconnected" and [database.host] as
    [mongoose.connection.host] holds it (null when that is null), and the
    serverless one reports "disconnected" with 'Not connected' in place of
    a missing host, never null.  After a failed start no such report is
    made: the long-running process has exited and answers nothing, and a
    serverless request whose establishment fails again is answered 500
    'Database connection failed'. *)
Theorem C6_health_report_and_failed_start
    (X : Express) (w w0 : World) (req : Request) (res : Res) (id : nat)
    (e : Error) (c : Connection) (inputs : list (Input (option Response))) :
  readyState (connection w) = DISCONNECTED →
  exited w0 = None →
  background w0 = [] →
  cachedConnection w0 = None →
  transparent X req →
  (∃ r, run (LongRunning.health req res) w = (w, Done (Sent r))
        ∧ status r = statusCode res
        ∧ database_status r = VStr "disconnected"
        ∧ database_host r = host (connection w)
        ∧ (host (connection w) = VNull → reports_disconnected (Some (Done (Some r)))))
  ∧ (∃ r, run (Serverless.health req res) w = (w, Done (Sent r))
          ∧ status r = statusCode res
          ∧ database_status r = VStr "disconnected"
          ∧ database_host r = Js.or (host (connection w)) (VStr "Not connected")
          ∧ ¬ reports_disconnected (Some (Done (Some r))))
  ∧ finished (exec (boot (up w0)) (Settle (next_promise w0) (Rejected e) c :: inputs)) = []
  ∧ (let l := exec (boot w0)
                [Call id (Serverless.serve X req);
                 Settle (next_promise w0) (Rejected e) c] in
     finished l = [(id, Done (Some (MkResponse 500 []
                      (VObj [("message", VStr "Database connection failed");
                             ("error", VStr (message e))]))))]
     ∧ ¬ reports_disconnected (outcome id (finished l))).
Proof.
  intros Hdown He Hb Hc through.
  rewrite long_running_health_run, serverless_health_run.
  split; [|split; [|split]].
  - eexists. split; [reflexivity|]. unfold database_status, database_host.
    cbn. rewrite Hdown. repeat split.
    intros Hnull. eexists. split; [reflexivity|].
    unfold database_status, database_host. cbn. by rewrite Hnull.
  - eexists. split; [reflexivity|]. unfold database_status, database_host.
    cbn. rewrite Hdown. repeat split.
    intros (r & Hr & _ & Hhost). injection Hr as <-.
    unfold database_host in Hhost. cbn in Hhost.
    by apply or_not_connected_not_null in Hhost.
  - rewrite exec_cons. unfold boot.
    destruct (startup_rejected (A:=option Response) w0 [] [] e c He Hb) as (Hx & Hf & _).
    rewrite (exec_exited _ _ 1) by exact Hx. exact Hf.
  - cbn zeta. rewrite (serverless_request_rejected X w0 req id e c through Hc He Hb).
    cbn [finished]. split; [reflexivity|].
    intros (r & Hr & Hs & _). cbn in Hr. rewrite Nat.eqb_refl in Hr.
    injection Hr as <-. vm_compute in Hs. discriminate.
Qed.

Lemma C6_witness :
  (∃ r, run (LongRunning.health get_health fresh_res) cold = (cold, Done (Sent r))
        ∧ status r = statusCode fresh_res
        ∧ database_status r = VStr "disconnected"
        ∧ database_host r = host (connection cold)
        ∧ (host (connection cold) = VNull → reports_disconnected (Some (Done (Some r)))))
  ∧ (∃ r, run (Serverless.health get_health fresh_res) cold = (cold, Done (Sent r))
          ∧ status r = statusCode fresh_res
          ∧ database_status r = VStr "disconnected"
          ∧ database_host r = Js.or (host (connection cold)) (VStr "Not connected")
          ∧ ¬ reports_disconnected (Some (Done (Some r))))
  ∧ finished (exec (boot (up cold))
                (Settle (next_promise cold) (Rejected refused) never_connected
                 :: [Call 2%nat (LongRunning.serve plain (up cold) get_health)])) = []
  ∧ (let l := exec (boot cold)
                [Call 1%nat (Serverless.serve plain get_health);
                 Settle (next_promise cold) (Rejected refused) never_connected] in
     finished l = [(1%nat, Done (Some (MkResponse 500 []
                      (VObj [("message", VStr "Database connection failed");
                             ("error", VStr (message refused))]))))]
     ∧ ¬ reports_disconnected (outcome 1 (finished l))).
Proof.
  apply (C6_health_report_and_failed_start plain cold cold get_health fresh_res 1
           refused never_connected
           [Call 2%nat (LongRunning.serve plain (up cold) get_health)]).
  - reflexivity.
  - reflexivity.
  - reflexivity.
  - reflexivity.
  - intros e res. reflexivity.
Defined.


(** ** A logic of handlers *)

Lemma safe_weaken {A : Type} (m : Prog A) (warm : bool) (budget : nat)
    (P P' : bool → nat → A → Prop) (Q Q' : bool → nat → Error → Prop) :
  safe warm budget P Q m →
  (∀ wm n a, P wm n a → P' wm n a) →
  (∀ wm n e, Q wm n e → Q' wm n e) →
  safe warm budget P' Q' m.
Proof.
  intros H HP HQ. revert warm budget H.
  induction m as
    [A a|A e|A k IH|A conn k IH|A key k IH|A k IH|A k IH|A s args k IH|A uri o k IH
    |A p k IH|A event fn IHfn k IH|A port cb IHcb k IH|A child IHc k IH|A code];
    intros warm budget H; cbn in *; eauto.
  - destruct budget; [done|]. eauto.
  - destruct H as (? & ? & H). eauto.
Qed.

Lemma safe_bind {A B : Type} (m : Prog A) (f : A → Prog B) (warm : bool) (budget : nat)
    (P : bool → nat → A → Prop) (Q : bool → nat → Error → Prop)
    (P' : bool → nat → B → Prop) (Q' : bool → nat → Error → Prop) :
  safe warm budget P Q m →
  (∀ wm n a, P wm n a → safe wm n P' Q' (f a)) →
  (∀ wm n e, Q wm n e → Q' wm n e) →
  safe warm budget P' Q' (bind m f).
Proof.
  intros H HP HQ. revert warm budget H.
  induction m as
    [A a|A e|A k IH|A conn k IH|A key k IH|A k IH|A k IH|A s args k IH|A uri o k IH
    |A p k IH|A event fn IHfn k IH|A port cb IHcb k IH|A child IHc k IH|A code];
    intros warm budget H; cbn in *; eauto.
  - destruct budget; [done|]. eauto.
  - destruct H as (? & ? & H). eauto.
Qed.

Lemma safe_try_catch {A : Type} (m : Prog A) (handler : Error → Prog A)
    (warm : bool) (budget : nat)
    (P : bool → nat → A → Prop) (Q Q' : bool → nat → Error → Prop) :
  safe warm budget P Q m →
  (∀ wm n e, Q wm n e → safe wm n P Q' (handler e)) →
  safe warm budget P Q' (try_catch m handler).
Proof.
  intros H HQ. revert warm budget H.
  induction m as
    [A a|A e|A k IH|A conn k IH|A key k IH|A k IH|A k IH|A s args k IH|A uri o k IH
    |A p k IH|A event fn IHfn k IH|A port cb IHcb k IH|A child IHc k IH|A code];
    intros warm budget H; cbn in *; eauto.
  - destruct budget; [done|]. eauto.
  - destruct H as (? & ? & H). eauto.
Qed.

Lemma attempts_emit_console (w : World) (s : Stream) (args : list LogArg) :
  attempts (emit (EvConsole s args) w) = attempts w.
Proof.
  unfold attempts, connects. cbn [trace emit].
  rewrite filter_app, length_app.
  change (filter is_connect [EvConsole s args]) with (@nil Event).
  cbn [length]. lia.
Qed.

(** What [safe] promises of a run. *)
Lemma run_safe {A : Type} (m : Prog A) (warm : bool) (budget : nat)
    (P : bool → nat → A → Prop) (Q : bool → nat → Error → Prop) (w : World) :
  safe warm budget P Q m →
  (warm = true → is_Some (cachedConnection w)) →
  ∃ warm' budget',
    exited (run m w).1 = exited w
    ∧ listeners (run m w).1 = listeners w
    ∧ background (run m w).1 = background w
    ∧ listening (run m w).1 = listening w
    ∧ connection (run m w).1 = connection w
    ∧ (attempts (run m w).1 + budget' = attempts w + budget)%nat
    ∧ (budget' ≤ budget)%nat
    ∧ (warm' = true → is_Some (cachedConnection (run m w).1))
    ∧ (is_Some (cachedConnection w) → is_Some (cachedConnection (run m w).1))
    ∧ match (run m w).2 with
      | Done a => P warm' budget' a
      | Failed e => Q warm' budget' e
      | Blocked t =>
          warm = false ∧ attempts (run m w).1 = (attempts w + budget)%nat
          ∧ ∀ s, safe false 0 P Q (resume t s)
      | Halted _ => False
      end.
Proof.
  revert P warm budget w.
  induction m as
    [A a|A e|A k IH|A conn k IH|A key k IH|A k IH|A k IH|A s args k IH|A uri o k IH
    |A p k IH|A event fn IHfn k IH|A port cb IHcb k IH|A child IHc k IH|A code];
    intros P warm budget w H Hw; cbn [safe] in H; try done.
  - exists warm, budget. cbn. repeat split; auto.
  - exists warm, budget. cbn. repeat split; auto.
  - cbn [run]. apply (IH _ P warm budget w); auto.
  - cbn [run].
    destruct (IH P true budget (set_cached conn w) H) as (wm & n & IHr); [by eexists|].
    exists wm, n. cbn [exited listeners background listening connection set_cached] in IHr.
    change (attempts (set_cached conn w)) with (attempts w) in IHr.
    destruct IHr as (? & ? & ? & ? & ? & ? & ? & ? & Hmono & Hres).
    repeat split; auto.
    destruct (run k (set_cached conn w)).2; auto.
    by destruct Hres as (? & _).
  - cbn [run]. apply (IH _ P warm budget w); auto.
  - cbn [run]. apply (IH _ P warm budget w); auto.
  - cbn [run]. apply (IH _ P warm budget w); auto.
  - cbn [run].
    destruct (IH P warm budget (emit (EvConsole s args) w) H Hw) as (wm & n & IHr).
    exists wm, n. rewrite attempts_emit_console in IHr. exact IHr.
  - cbn [run]. destruct budget as [|budget]; [done|].
    destruct (IH (next_promise w) P warm budget
                (emit (EvConnect uri o (next_promise w)) (fresh_promise w))
                (H _) Hw) as (wm & n & IHr).
    exists wm, n. rewrite attempts_emit_connect in IHr.
    change (attempts (fresh_promise w)) with (attempts w) in IHr.
    cbn [exited listeners background listening connection emit fresh_promise
         cachedConnection] in IHr.
    destruct IHr as (? & ? & ? & ? & ? & Ha & ? & ? & ? & Hres).
    repeat split; auto; try lia.
    destruct (run _ _).2; auto.
    destruct Hres as (? & ? & ?). repeat split; auto. lia.
  - destruct H as (-> & -> & H). exists false, 0%nat. cbn.
    repeat split; auto.
Qed.

(** ** The serverless stack, whatever the collaborators do *)

Section Handles.

Context (X : Express) (req : Request) (C : bool → nat → Prop).

Lemma handles_use_ext (e : External) (rest : list Layer) :
  handles X req C rest → handles X req C (Use (ext X e) :: rest).
Proof.
  intros H warm budget [err|] res HC; cbn; [by apply H|].
  destruct (external X e req res); cbn; [by eexists|by apply H|by apply H].
Qed.

Lemma handles_mount_ext (mount : string) (e : External) (rest : list Layer) :
  handles X req C rest → handles X req C (UseAt mount (ext X e) :: rest).
Proof.
  intros H warm budget [err|] res HC; cbn; [by apply H|].
  destruct (mounted X mount req); cbn; [|by apply H].
  destruct (external X e req res); cbn; [by eexists|by apply H|by apply H].
Qed.

(** From the error handler on, every request is answered. *)
Lemma handles_tail :
  handles X req C [UseError Serverless.error_handler; Use Serverless.not_found].
Proof. intros warm budget [err|] res HC; cbn; [intros v|]; by eexists. Qed.

Lemma handles_health (rest : list Layer) :
  handles X req C rest → handles X req C (Get "/api/health" Serverless.health :: rest).
Proof.
  intros H warm budget [err|] res HC; cbn; [by apply H|].
  destruct (routed X "GET" "/api/health" req); cbn; [|by apply H].
  intros c t. by eexists.
Qed.

Lemma handles_routes :
  handles X req C
    [UseAt "/api/blogs" (ext X (router "../routes/blogRoutes"));
     UseAt "/api/projects" (ext X (router "../routes/projectRoutes"));
     UseAt "/api/services" (ext X (router "../routes/serviceRoutes"));
     UseAt "/api/teams" (ext X (router "../routes/teamRoutes"));
     Get "/api/health" Serverless.health;
     UseError Serverless.error_handler;
     Use Serverless.not_found].
Proof. repeat apply handles_mount_ext. apply handles_health, handles_tail. Qed.

End Handles.

(** [connectDB] calls the driver at most once, and not at all when the
    cache is filled; it awaits nothing but that call. *)
Lemma connectDB_safe (warm : bool) (budget : nat) :
  may_connect warm budget →
  safe warm budget (λ _ _ _, True) (λ _ _ _, True) Serverless.connectDB.
Proof.
  intros HC. cbn. intros [conn|] Hc; cbn; [auto|].
  intros uri. destruct warm; [by destruct (Hc eq_refl)|].
  destruct HC as [?| ->]; [done|].
  intros p. repeat split. intros [conn|e]; cbn; auto.
Qed.

Lemma handles_connect (X : Express) (req : Request) (rest : list Layer) :
  (∀ C, handles X req C rest) →
  handles X req may_connect (Use Serverless.connect_middleware :: rest).
Proof.
  intros H warm budget [err|] res HC; [by apply (H may_connect)|].
  cbn [dispatch applies].
  apply (safe_bind _ _ _ _
           (λ wm n out, safe wm n answered unhandled (onward X rest req out))
           unhandled); [|auto|auto].
  apply (safe_try_catch _ _ _ _ _ unhandled); [|by intros ? ? ? []].
  unfold Serverless.connect_middleware.
  apply (safe_try_catch _ _ _ _ _ (λ _ _ _, True)).
  - apply (safe_bind _ _ _ _ (λ _ _ _, True) (λ _ _ _, True));
      [by apply connectDB_safe| |auto].
    intros wm n _ _. cbn. by apply (H (λ _ _, True)).
  - intros wm n e _. cbn. by eexists.
Qed.

(** The exported application answers every request it is handed, calling
    the driver at most once on the way and not at all on a warm
    instance. *)
Lemma serve_safe (X : Express) (req : Request) (warm : bool) (budget : nat) :
  may_connect warm budget →
  safe warm budget answered unhandled (Serverless.serve X req).
Proof.
  intros HC. unfold Serverless.serve, Serverless.app.
  revert warm budget HC.
  assert (handles X req may_connect (Serverless.app X)) as H; [|intros; by apply H].
  unfold Serverless.app.
  repeat first [apply handles_use_ext | apply handles_mount_ext].
  apply handles_connect. intros C. apply handles_routes.
Qed.

(** ** A serverless instance over any history *)

Lemma calls_cons {A : Type} (i : Input A) (inputs : list (Input A)) :
  calls (i :: inputs) = ((if is_call i then 1 else 0) + calls inputs)%nat.
Proof. by destruct i. Qed.

Lemma wake_steady (p : Promise) (s : Settled)
    (ts : list (nat * Parked (option Response))) (l : Loop (option Response))
    (base : nat) :
  quiet (world l) →
  Forall replied (finished l) →
  Forall spent (parked l) →
  Forall spent ts →
  (attempts (world l) ≤ base)%nat →
  steady base (length (parked l) + length (finished l) + length ts) (wake p s ts l).
Proof.
  revert l. induction ts as [|[id t] ts IH]; intros l Hq Hf Hp Hts Ha.
  - cbn. unfold steady. repeat split; try apply Hq; auto; lia.
  - cbn [wake]. destruct Hq as (He & Hl & Hb). rewrite He.
    apply Forall_cons in Hts as [Ht Hts].
    destruct (Nat.eqb (waits_for t) p).
    + destruct (run_safe (resume t s) false 0 answered unhandled (world l) (Ht s))
        as (wm & n & Hex & Hli & Hbg & _ & _ & Hat & _ & _ & _ & Hres); [done|].
      destruct (run (resume t s) (world l)) as [w' [o|e|t'|code]];
        cbn [fst snd] in *; try done.
      * destruct Hres as [r ->]. cbn [land].
        replace (length (parked l) + length (finished l) + length ((id, t) :: ts))%nat
          with (length (parked l) + length (finished l ++ [(id, Done (Some r))])
                + length ts)%nat
          by (rewrite length_app; cbn; lia).
        apply (IH (MkLoop w' (parked l) (finished l ++ [(id, Done (Some r))])));
          cbn [world parked finished]; auto.
        -- repeat split; congruence.
        -- apply Forall_app. split; [done|]. apply Forall_singleton. by exists r.
        -- lia.
      * destruct Hres as (_ & _ & Hsp). cbn [land].
        replace (length (parked l) + length (finished l) + length ((id, t) :: ts))%nat
          with (length (parked l ++ [(id, t')]) + length (finished l) + length ts)%nat
          by (rewrite length_app; cbn; lia).
        apply (IH (MkLoop w' (parked l ++ [(id, t')]) (finished l)));
          cbn [world parked finished]; auto.
        -- repeat split; congruence.
        -- apply Forall_app. split; [done|]. by apply Forall_singleton.
        -- lia.
    + replace (length (parked l) + length (finished l) + length ((id, t) :: ts))%nat
        with (length (parked l ++ [(id, t)]) + length (finished l) + length ts)%nat
        by (rewrite length_app; cbn; lia).
      apply (IH (MkLoop (world l) (parked l ++ [(id, t)]) (finished l)));
        cbn [world parked finished]; auto.
      * by repeat split.
      * apply Forall_app. split; [done|]. by apply Forall_singleton.
Qed.

Lemma step_steady (X : Express) (base n : nat) (l : Loop (option Response))
    (i : Input (option Response)) :
  steady base n l →
  serverless_input X i →
  steady (base + (if is_call i then 1 else 0)) (n + (if is_call i then 1 else 0))
         (step l i).
Proof.
  intros (Hq & Hf & Hp & Ha & Hn) Hi.
  pose proof Hq as (He & Hl & Hb).
  destruct i as [id m|p s c|event arg c|t]; cbn [is_call].
  - destruct Hi as [req ->]. rewrite step_call by exact He.
    destruct (run_safe (Serverless.serve X req) false 1 answered unhandled (world l))
      as (wm & k & Hex & Hli & Hbg & _ & _ & Hat & _ & _ & _ & Hres);
      [apply serve_safe; by right|done|].
    destruct (run (Serverless.serve X req) (world l)) as [w' [o|e|t'|code]];
      cbn [fst snd] in *; try done.
    + destruct Hres as [r ->]. cbn [land]. unfold steady. cbn [world parked finished].
      split; [repeat split; congruence|].
      split; [apply Forall_app; split; [done|]; apply Forall_singleton; by exists r|].
      split; [done|]. split; [lia|]. rewrite length_app. cbn. lia.
    + destruct Hres as (_ & _ & Hsp). cbn [land]. unfold steady.
      cbn [world parked finished].
      split; [repeat split; congruence|]. split; [done|].
      split; [apply Forall_app; split; [done|]; by apply Forall_singleton|].
      split; [lia|]. rewrite length_app. cbn. lia.
  - rewrite step_settle by exact He. rewrite Hb. cbn [wake_background].
    rewrite !Nat.add_0_r.
    replace n with (length (@nil (nat * Parked (option Response)))
                    + length (finished l) + length (parked l))%nat
      by (cbn; lia).
    apply (wake_steady p s (parked l)
             (MkLoop (set_background [] (set_connection c (world l))) [] (finished l)));
      cbn [world parked finished]; auto.
    repeat split; cbn; auto.
  - rewrite step_emit by exact He. rewrite Hl. cbn [fire].
    rewrite !Nat.add_0_r. unfold steady. cbn [world parked finished].
    repeat split; cbn; auto.
  - unfold step. rewrite He. rewrite !Nat.add_0_r. unfold steady.
    cbn [world parked finished]. repeat split; cbn; auto.
Qed.

Lemma exec_steady (X : Express) (inputs : list (Input (option Response)))
    (base n : nat) (l : Loop (option Response)) :
  steady base n l →
  Forall (serverless_input X) inputs →
  steady (base + calls inputs) (n + calls inputs) (exec l inputs).
Proof.
  revert base n l. induction inputs as [|i inputs IH]; intros base n l Hs Hi.
  - cbn. by rewrite !Nat.add_0_r.
  - apply Forall_cons in Hi as [Hi His].
    rewrite exec_cons, calls_cons, !Nat.add_assoc.
    apply IH; [|done]. by apply (step_steady X).
Qed.

Lemma boot_steady (w : World) : quiet w → steady (attempts w) 0 (boot w).
Proof. intros Hq. unfold steady, boot. cbn. repeat split; auto; apply Hq. Qed.



Lemma busy_morning_serverless : Forall (serverless_input plain) busy_morning.
Proof.
  unfold busy_morning.
  repeat (apply Forall_cons; split; [first [exact I | by eexists]|]).
  apply Forall_nil_2.
Qed.

Lemma cold_quiet : quiet cold.
Proof. by repeat split. Qed.


(** X1.  Nothing that requests, the driver, the clock or the collaborators
    do makes a serverless instance exit, register a connection listener or
    leave a detached call behind: no statement of the request path of
    [api/index.js] does, whatever the collaborators answer. *)
Theorem serverless_instance_keeps_running
    (X : Express) (w : World) (inputs : list (Input (option Response))) :
  quiet w →
  Forall (serverless_input X) inputs →
  quiet (world (exec (boot w) inputs)).
Proof.
  intros Hq Hi.
  destruct (exec_steady X inputs _ _ _ (boot_steady w Hq) Hi) as (H & _). exact H.
Qed.

Lemma serverless_instance_keeps_running_witness :
  quiet (world (exec (boot cold) busy_morning)).
Proof.
  apply (serverless_instance_keeps_running plain cold busy_morning).
  - exact cold_quiet.
  - exact busy_morning_serverless.
Defined.

(** X2.  No request handed to the serverless application is lost or ends
    in an unhandled rejection: at every moment each request that has come
    in either waits for the driver or has completed with a response,
    whatever the collaborators and the driver do. *)
Theorem serverless_every_request_is_answered
    (X : Express) (w : World) (inputs : list (Input (option Response))) :
  quiet w →
  Forall (serverless_input X) inputs →
  Forall replied (finished (exec (boot w) inputs))
  ∧ (length (parked (exec (boot w) inputs)) + length (finished (exec (boot w) inputs)))%nat
    = calls inputs.
Proof.
  intros Hq Hi.
  destruct (exec_steady X inputs _ _ _ (boot_steady w Hq) Hi) as (_ & Hf & _ & _ & Hn).
  split; [exact Hf|exact Hn].
Qed.

Lemma serverless_every_request_is_answered_witness :
  Forall replied (finished (exec (boot cold) busy_morning))
  ∧ (length (parked (exec (boot cold) busy_morning))
     + length (finished (exec (boot cold) busy_morning)))%nat
    = calls busy_morning.
Proof.
  apply (serverless_every_request_is_answered plain cold busy_morning).
  - exact cold_quiet.
  - exact busy_morning_serverless.
Defined.

(** X3.  The connection manager never retries on its own: over any
    history of a serverless instance [mongoose.connect] has been called at
    most once per request that has come in. *)
Theorem serverless_at_most_one_attempt_per_request
    (X : Express) (w : World) (inputs : list (Input (option Response))) :
  quiet w →
  Forall (serverless_input X) inputs →
  (attempts (world (exec (boot w) inputs)) ≤ attempts w + calls inputs)%nat.
Proof.
  intros Hq Hi.
  destruct (exec_steady X inputs _ _ _ (boot_steady w Hq) Hi) as (_ & _ & _ & Ha & _).
  exact Ha.
Qed.

Lemma serverless_at_most_one_attempt_per_request_witness :
  (attempts (world (exec (boot cold) busy_morning)) ≤ attempts cold + calls busy_morning)%nat.
Proof.
  apply (serverless_at_most_one_attempt_per_request plain cold busy_morning).
  - exact cold_quiet.
  - exact busy_morning_serverless.
Defined.



(** ** Errors passed on in the stack *)

(** X5.  In the serverless entry point an error passed on ([next(err)])
    anywhere up to the error handler skips everything in between, the
    connection middleware and so [connectDB] included, and is answered by
    the error handler: the stack trace goes to the console and the
    response is 500 with 'Something went wrong!' and, as [error],
    'Internal Server Error' in production and the message of the error
    otherwise. *)
Theorem serverless_error_goes_to_error_handler
    (X : Express) (req : Request) (res : Res) (w : World) (e : Error) (k : nat) :
  (k ≤ 12)%nat →
  run (dispatch X (drop k (Serverless.app X)) (Some e) req res) w
  = (emit (EvConsole Err [Text "Error:"; Text (stack e)]) w,
     Done (Some (MkResponse 500 (headers res)
       (VObj [("message", VStr "Something went wrong!");
              ("error", if bool_decide (env w !! "NODE_ENV" = Some "production")
                        then VStr "Internal Server Error"
                        else VStr (message e))])))).
Proof.
  intros Hk. do 13 (destruct k as [|k]; [reflexivity|]). lia.
Qed.

Lemma serverless_error_goes_to_error_handler_witness :
  run (dispatch plain (drop 4 (Serverless.app plain)) (Some refused) get_health fresh_res) cold
  = (emit (EvConsole Err [Text "Error:"; Text (stack refused)]) cold,
     Done (Some (MkResponse 500 (headers fresh_res)
       (VObj [("message", VStr "Something went wrong!");
              ("error", if bool_decide (env cold !! "NODE_ENV" = Some "production")
                        then VStr "Internal Server Error"
                        else VStr (message refused))])))).
Proof.
  apply (serverless_error_goes_to_error_handler plain get_health fresh_res cold refused 4).
  lia.
Defined.

(** X6.  In the long-running entry point an error passed on anywhere up
    to the error handler skips every route and is answered by the error
    handler: the stack trace goes to the console and the response is 500
    with 'Something went wrong!' and, as [error], an empty object in
    production and the message of the error otherwise. *)
Theorem long_running_error_goes_to_error_handler
    (X : Express) (frontend_url : option string) (req : Request) (res : Res)
    (w : World) (e : Error) (k : nat) :
  (k ≤ 13)%nat →
  run (dispatch X (drop k (LongRunning.app X frontend_url)) (Some e) req res) w
  = (emit (EvConsole Err [Text (stack e)]) w,
     Done (Some (MkResponse 500 (headers res)
       (VObj [("message", VStr "Something went wrong!");
              ("error", if bool_decide (env w !! "NODE_ENV" = Some "production")
                        then VObj []
                        else VStr (message e))])))).
Proof.
  intros Hk. do 14 (destruct k as [|k]; [reflexivity|]). lia.
Qed.

Lemma long_running_error_goes_to_error_handler_witness :
  run (dispatch plain (drop 4 (LongRunning.app plain None)) (Some refused)
         get_health fresh_res) cold
  = (emit (EvConsole Err [Text (stack refused)]) cold,
     Done (Some (MkResponse 500 (headers fresh_res)
       (VObj [("message", VStr "Something went wrong!");
              ("error", if bool_decide (env cold !! "NODE_ENV" = Some "production")
                        then VObj []
                        else VStr (message refused))])))).
Proof.
  apply (long_running_error_goes_to_error_handler
           plain None get_health fresh_res cold refused 4).
  lia.
Defined.

(** ** The text of the connection state *)

Lemma dbStatusText_lookup (s : Z) :
  dbStatusText !! s
  = if decide (s = 0) then Some "disconnected"
    else if decide (s = 1) then Some "connected"
    else if decide (s = 2) then Some "connecting"
    else if decide (s = 3) then Some "disconnecting"
    else None.
Proof.
  unfold dbStatusText.
  repeat (rewrite lookup_insert; case_decide; [subst; by repeat case_decide|]).
  rewrite lookup_singleton. repeat case_decide; done || lia.
Qed.

(** X7.  The health reports of both entry points name the state of the
    connection exactly for the ready states 0 to 3, with a different text
    for each; for any other ready state the table has no entry and
    [database.status] is undefined. *)
Theorem health_status_text (w : World) (req : Request) (res : Res) :
  (∃ r r', run (LongRunning.health req res) w = (w, Done (Sent r))
           ∧ run (Serverless.health req res) w = (w, Done (Sent r'))
           ∧ database_status r = of_option (dbStatusText !! readyState (connection w))
           ∧ database_status r' = database_status r
           ∧ (database_status r = VUndefined ↔ ¬ (0 ≤ readyState (connection w) ≤ 3)%Z))
  ∧ (∀ s1 s2 t, dbStatusText !! s1 = Some t → dbStatusText !! s2 = Some t → s1 = s2).
Proof.
  split.
  - rewrite long_running_health_run, serverless_health_run.
    eexists _, _. split; [reflexivity|]. split; [reflexivity|].
    unfold database_status. cbn. split; [reflexivity|]. split; [reflexivity|].
    rewrite dbStatusText_lookup.
    repeat case_decide; cbn; split; intros; try done; try lia.
  - intros s1 s2 t. rewrite !dbStatusText_lookup.
    repeat case_decide; intros; simplify_eq; lia.
Qed.

(** ** The headers of [/images] *)

(** X8.  In the long-running entry point, with collaborators that let
    the request through, the answer of the application's own handlers
    carries the two cross-origin headers of the [/images] middleware, in
    the order they are set, exactly when the request is under [/images],
    and no header otherwise. *)
Theorem long_running_images_headers (X : Express) (w : World) (req : Request) :
  transparent X req →
  ∃ r, run (LongRunning.serve X w req) w = (w, Done (Some r))
       ∧ sent_headers r
         = if mounted X "/images" req
           then [("Access-Control-Allow-Origin", "http://localhost:3000");
                 ("Cross-Origin-Resource-Policy", "cross-origin")]
           else [].
Proof.
  intros through.
  destruct (routed X "GET" "/api/health" req) eqn:Hroute.
  - rewrite (long_running_serve_health X req through w Hroute).
    eexists. split; [reflexivity|].
    unfold past_images. by destruct (mounted X "/images" req).
  - rewrite (long_running_serve_not_found X req through w Hroute).
    eexists. split; [reflexivity|].
    unfold past_images. by destruct (mounted X "/images" req).
Qed.

Lemma long_running_images_headers_witness :
  ∃ r, run (LongRunning.serve plain cold (MkRequest "GET" "/images/logo.png" "/images/logo.png"))
           cold
       = (cold, Done (Some r))
       ∧ sent_headers r
         = if mounted plain "/images" (MkRequest "GET" "/images/logo.png" "/images/logo.png")
           then [("Access-Control-Allow-Origin", "http://localhost:3000");
                 ("Cross-Origin-Resource-Policy", "cross-origin")]
           else [].
Proof.
  apply (long_running_images_headers plain cold
           (MkRequest "GET" "/images/logo.png" "/images/logo.png")).
  intros e res. reflexivity.
Defined.

(** ** A cold instance whose connection succeeds *)

(** What the serverless stack answers behind the connection
    middleware, on the state [w]. *)
Lemma serverless_serve_fulfilled (X : Express) (req : Request) (w : World) :
  transparent X req →
  cachedConnection w = None →
  ∃ k, run (Serverless.serve X req) w =
         (emit (EvConnect (env w !! "MONGODB_ATLAS_URI") Serverless.options (next_promise w))
               (fresh_promise w),
          Blocked (MkParked (next_promise w) k))
       ∧ (∀ conn w',
            run (k (Fulfilled conn)) w' =
            run (dispatch X
                   [UseAt "/api/blogs" (ext X (router "../routes/blogRoutes"));
                    UseAt "/api/projects" (ext X (router "../routes/projectRoutes"));
                    UseAt "/api/services" (ext X (router "../routes/serviceRoutes"));
                    UseAt "/api/teams" (ext X (router "../routes/teamRoutes"));
                    Get "/api/health" Serverless.health;
                    UseError Serverless.error_handler;
                    Use Serverless.not_found] None req fresh_res)
                (emit (EvConsole Out
                         [Text ("MongoDB Atlas Connected: " ++ show (host (connection w')))])
                      (set_cached conn w'))).
Proof.
  intros through Hc.
  destruct (connect_middleware_uncached req fresh_res w Hc) as (k & Hrun & Hok & _).
  rewrite (serverless_descent X req through), run_dispatch_use, Hrun.
  cbn [and_then or_catch waits_for resume].
  eexists. split; [reflexivity|].
  intros conn w'. cbn beta. rewrite run_bind, run_try_catch, Hok. reflexivity.
Qed.

(** X9.  On a cold serverless instance a request waits for the driver;
    when the driver grants the connection, the handle is cached, the
    success is written to the console with the host of the connection,
    and only then do the routes answer, on the state the driver has left:
    a health check reports that state, any other unmatched request gets
    the 404.  One call of [mongoose.connect] has been made. *)
Theorem serverless_cold_request_connects_then_answers
    (X : Express) (w : World) (req : Request) (id : nat) (conn : Handle) (c : Connection) :
  transparent X req →
  cachedConnection w = None →
  quiet w →
  let l := exec (boot w)
             [Call id (Serverless.serve X req);
              Settle (next_promise w) (Fulfilled conn) c] in
  cachedConnection (world l) = Some conn
  ∧ attempts (world l) = S (attempts w)
  ∧ trace (world l)
    = trace w ++ [EvConnect (env w !! "MONGODB_ATLAS_URI") Serverless.options
                            (next_promise w);
                  EvConsole Out [Text ("MongoDB Atlas Connected: " ++ show (host c))]]
  ∧ parked l = []
  ∧ finished l
    = [(id, Done (Some
         (if routed X "GET" "/api/health" req
          then MkResponse 200 []
                 (VObj [("status", VStr "OK");
                        ("message", VStr "Server is running on Vercel");
                        ("database", VObj
                           [("status", of_option (dbStatusText !! readyState c));
                            ("host", Js.or (host c) (VStr "Not connected"));
                            ("name", Js.or (Mongoose.name c) (VStr "Not connected"))]);
                        ("timestamp", VStr (clock w));
                        ("serverless", VBool true)])
          else MkResponse 404 []
                 (VObj [("message", VStr "Route not found");
                        ("path", VStr (originalUrl req))]))))].
Proof.
  intros through Hc (He & Hl & Hb) l.
  destruct (serverless_serve_fulfilled X req w through Hc) as (k & Hrun & Hok).
  assert (l = MkLoop
    (emit (EvConsole Out [Text ("MongoDB Atlas Connected: " ++ show (host c))])
       (set_cached conn (set_background [] (set_connection c
          (emit (EvConnect (env w !! "MONGODB_ATLAS_URI") Serverless.options
                           (next_promise w))
                (fresh_promise w))))))
    []
    [(id, Done (Some
       (if routed X "GET" "/api/health" req
        then MkResponse 200 []
               (VObj [("status", VStr "OK");
                      ("message", VStr "Server is running on Vercel");
                      ("database", VObj
                         [("status", of_option (dbStatusText !! readyState c));
                          ("host", Js.or (host c) (VStr "Not connected"));
                          ("name", Js.or (Mongoose.name c) (VStr "Not connected"))]);
                      ("timestamp", VStr (clock w));
                      ("serverless", VBool true)])
        else MkResponse 404 []
               (VObj [("message", VStr "Route not found");
                      ("path", VStr (originalUrl req))]))))]) as ->.
  { subst l. unfold boot. rewrite exec_cons, step_call by exact He.
    cbn [world]. rewrite Hrun. cbn [land parked finished app].
    rewrite exec_cons, step_settle by exact He.
    cbn [world parked finished background emit fresh_promise]. rewrite Hb.
    cbn [wake_background wake world exited set_background set_connection emit
         fresh_promise waits_for resume].
    rewrite He, Nat.eqb_refl, Hok, (serverless_routes X req through).
    by destruct (routed X "GET" "/api/health" req). }
  cbn [world parked finished]. split; [reflexivity|]. split.
  { rewrite attempts_emit_console. change (attempts (set_cached _ _)) with
      (attempts (emit (EvConnect (env w !! "MONGODB_ATLAS_URI") Serverless.options
                                 (next_promise w)) (fresh_promise w))).
    by rewrite attempts_emit_connect. }
  split; [cbn; by rewrite <- app_assoc|]. split; reflexivity.
Qed.

Lemma serverless_cold_request_connects_then_answers_witness :
  let l := exec (boot cold)
             [Call 1%nat (Serverless.serve plain get_health);
              Settle (next_promise cold) (Fulfilled 7%nat) atlas] in
  cachedConnection (world l) = Some 7%nat
  ∧ attempts (world l) = S (attempts cold)
  ∧ trace (world l)
    = trace cold ++ [EvConnect (env cold !! "MONGODB_ATLAS_URI") Serverless.options
                               (next_promise cold);
                     EvConsole Out [Text ("MongoDB Atlas Connected: " ++ show (host atlas))]]
  ∧ parked l = []
  ∧ finished l
    = [(1%nat, Done (Some
         (if routed plain "GET" "/api/health" get_health
          then MkResponse 200 []
                 (VObj [("status", VStr "OK");
                        ("message", VStr "Server is running on Vercel");
                        ("database", VObj
                           [("status", of_option (dbStatusText !! readyState atlas));
                            ("host", Js.or (host atlas) (VStr "Not connected"));
                            ("name", Js.or (Mongoose.name atlas) (VStr "Not connected"))]);
                        ("timestamp", VStr (clock cold));
                        ("serverless", VBool true)])
          else MkResponse 404 []
                 (VObj [("message", VStr "Route not found");
                        ("path", VStr (originalUrl get_health))]))))].
Proof.
  apply (serverless_cold_request_connects_then_answers plain cold get_health 1 7 atlas).
  - intros e res. reflexivity.
  - reflexivity.
  - exact cold_quiet.
Defined.

(** ** After a failed establishment *)

(** X10.  A failed establishment is not remembered: after the driver has
    rejected the connection of one request, the cache is still empty and
    the next request calls [mongoose.connect] again, on a new promise, and
    waits for it. *)
Theorem serverless_failure_is_retried_by_next_request
    (X : Express) (w : World) (req req' : Request) (id id' : nat)
    (e : Error) (c : Connection) :
  transparent X req →
  transparent X req' →
  cachedConnection w = None →
  quiet w →
  let l := exec (boot w)
             [Call id (Serverless.serve X req);
              Settle (next_promise w) (Rejected e) c;
              Call id' (Serverless.serve X req')] in
  attempts (world l) = S (S (attempts w))
  ∧ cachedConnection (world l) = None
  ∧ (∃ k, parked l = [(id', MkParked (S (next_promise w)) k)])
  ∧ last (trace (world l))
    = Some (EvConnect (env w !! "MONGODB_ATLAS_URI") Serverless.options
                      (S (next_promise w))).
Proof.
  intros through through' Hc (He & Hl & Hb) l. subst l.
  change (exec (boot w)
            [Call id (Serverless.serve X req);
             Settle (next_promise w) (Rejected e) c;
             Call id' (Serverless.serve X req')])
    with (exec (exec (boot w)
                  [Call id (Serverless.serve X req);
                   Settle (next_promise w) (Rejected e) c])
               [Call id' (Serverless.serve X req')]).
  rewrite (serverless_request_rejected X w req id e c through Hc He Hb).
  set (w1 := emit _ _).
  assert (cachedConnection w1 = None) as Hc1 by exact Hc.
  assert (exited w1 = None) as He1 by exact He.
  destruct (serverless_serve_uncached X req' w1 through' Hc1) as (k & Hrun & _).
  rewrite exec_cons, step_call by exact He1. cbn [world]. rewrite Hrun.
  cbn [land parked finished app exec foldl world].
  split.
  { rewrite attempts_emit_connect. change (attempts (fresh_promise w1)) with (attempts w1).
    subst w1. rewrite attempts_emit_console.
    change (attempts (set_background _ _)) with
      (attempts (emit (EvConnect (env w !! "MONGODB_ATLAS_URI") Serverless.options
                                 (next_promise w)) (fresh_promise w))).
    by rewrite attempts_emit_connect. }
  split; [exact Hc|]. split; [by exists k|].
  cbn [trace emit]. by rewrite last_snoc.
Qed.

Lemma serverless_failure_is_retried_by_next_request_witness :
  let l := exec (boot cold)
             [Call 1%nat (Serverless.serve plain get_health);
              Settle (next_promise cold) (Rejected refused) never_connected;
              Call 2%nat (Serverless.serve plain get_nowhere)] in
  attempts (world l) = S (S (attempts cold))
  ∧ cachedConnection (world l) = None
  ∧ (∃ k, parked l = [(2%nat, MkParked (S (next_promise cold)) k)])
  ∧ last (trace (world l))
    = Some (EvConnect (env cold !! "MONGODB_ATLAS_URI") Serverless.options
                      (S (next_promise cold))).
Proof.
  apply (serverless_failure_is_retried_by_next_request
           plain cold get_health get_nowhere 1 2 refused never_connected).
  - intros e res. reflexivity.
  - intros e res. reflexivity.
  - reflexivity.
  - exact cold_quiet.
Defined.

(** ** The first call and the calls after it *)

(** X11.  What [connectDB] caches is what it returns: on a cold instance
    the first call goes to the driver once and, when the driver grants
    the connection, caches the handle and returns it; every call after it
    returns that same handle without a further call of the driver. *)
Theorem connectDB_first_call_then_cached
    (w : World) (id : nat) (conn : Handle) (c : Connection) (ids : list nat) :
  cachedConnection w = None →
  quiet w →
  let l := exec (boot w)
             (Call id Serverless.connectDB
              :: Settle (next_promise w) (Fulfilled conn) c
              :: map (λ id', Call id' Serverless.connectDB) ids) in
  finished l = (id, Done conn) :: map (λ id', (id', Done conn)) ids
  ∧ parked l = []
  ∧ cachedConnection (world l) = Some conn
  ∧ attempts (world l) = S (attempts w).
Proof.
  intros Hc (He & Hl & Hb) l. subst l.
  destruct (connectDB_uncached w Hc) as (k & Hrun & Hok & _).
  unfold boot. rewrite exec_cons, step_call by exact He.
  cbn [world]. rewrite Hrun. cbn [land parked finished app].
  rewrite exec_cons, step_settle by exact He.
  cbn [world parked finished background emit fresh_promise]. rewrite Hb.
  cbn [wake_background wake world exited set_background set_connection emit
       fresh_promise waits_for resume].
  rewrite He, Nat.eqb_refl, Hok. cbn [land parked finished app].
  rewrite (calls_cached _ conn) by (reflexivity || exact He).
  cbn [world parked finished app]. repeat split.
  rewrite attempts_emit_console.
  change (attempts (set_cached _ _)) with
    (attempts (emit (EvConnect (env w !! "MONGODB_ATLAS_URI") Serverless.options
                               (next_promise w)) (fresh_promise w))).
  by rewrite attempts_emit_connect.
Qed.

Lemma connectDB_first_call_then_cached_witness :
  let l := exec (boot cold)
             (Call 1%nat Serverless.connectDB
              :: Settle (next_promise cold) (Fulfilled 7%nat) atlas
              :: map (λ id', Call id' Serverless.connectDB) [2; 3]%nat) in
  finished l = (1%nat, Done 7%nat) :: map (λ id', (id', Done 7%nat)) [2; 3]%nat
  ∧ parked l = []
  ∧ cachedConnection (world l) = Some 7%nat
  ∧ attempts (world l) = S (attempts cold).
Proof.
  apply (connectDB_first_call_then_cached cold 1 7 atlas [2; 3]%nat).
  - reflexivity.
  - exact cold_quiet.
Defined.

(** ** The long-running server after its start *)

(** The call of [connectDB] that the script leaves behind, with what it
    does when the driver answers. *)
Lemma startup_settles (w : World) :
  listeners w = [] →
  ∃ k, background (up w) = background w ++ [MkParked (next_promise w) k]
       ∧ listeners (up w)
         = [("connected", λ _, console_log [Text "Mongoose connected to MongoDB Atlas"]);
            ("error", λ err, console_error
                       [Text "Mongoose connection error:";
                        match err with Some e => Thrown e | None => Text "undefined" end]);
            ("disconnected",
             λ _, console_log [Text "Mongoose disconnected from MongoDB Atlas"]);
            ("listening", λ _,
               console_log [Text ("Server is running on port "
                                  ++ show (Js.or (of_option (env w !! "PORT")) (VNum 5000)))] >>
               console_log [Text ("Health check: http://localhost:"
                                  ++ show (Js.or (of_option (env w !! "PORT")) (VNum 5000))
                                  ++ "/api/health")])]
       ∧ cachedConnection (up w) = cachedConnection w
       ∧ (∀ conn w', run (k (Fulfilled conn)) w' =
            (emit (EvConsole Out [Text ("Database Name: " ++ show (Mongoose.name (connection w')))])
               (emit (EvConsole Out
                        [Text ("MongoDB Atlas Connected: " ++ show (host (connection w')))])
                     w'),
             Done tt))
       ∧ (∀ e w', run (k (Rejected e)) w' =
            (emit (EvExit 1)
               (set_exited 1
                  (emit (EvConsole Err [Text "MongoDB Atlas connection error:";
                                        Text (message e)])
                        w')),
             Halted 1)).
Proof.
  intros Hl. unfold up, LongRunning.main, LongRunning.connectDB. simpl. rewrite Hl.
  eexists. split; [reflexivity|]. split; [reflexivity|].
  repeat split.
Qed.

Lemma attempts_up (w : World) : attempts (up w) = S (attempts w).
Proof.
  destruct (startup w) as (k & _ & Htr & _).
  unfold attempts, connects. rewrite Htr, filter_app, length_app.
  change (filter is_connect _) with
    [EvConnect (env w !! "MONGODB_ATLAS_URI") LongRunning.options (next_promise w)]
    at 2.
  cbn [length]. lia.
Qed.

(** X12.  When the driver grants the startup connection of the
    long-running server, [connectDB] writes the host and the name of the
    database to the console and ends; the server keeps running and
    listening, with no call left in the background. *)
Theorem long_running_connection_granted (w : World) (conn : Handle) (c : Connection) :
  exited w = None →
  background w = [] →
  listeners w = [] →
  let l : Loop (option Response) :=
    exec (boot (up w)) [Settle (next_promise w) (Fulfilled conn) c] in
  exited (world l) = None
  ∧ listening (world l) = true
  ∧ background (world l) = []
  ∧ connection (world l) = c
  ∧ trace (world l)
    = trace (up w)
      ++ [EvConsole Out [Text ("MongoDB Atlas Connected: " ++ show (host c))];
          EvConsole Out [Text ("Database Name: " ++ show (Mongoose.name c))]].
Proof.
  intros He Hb Hl l. subst l.
  destruct (startup w) as (k0 & _ & _ & _ & Hli & Hex & _ & _).
  destruct (startup_settles w Hl) as (k & Hbg & _ & _ & Hok & _).
  rewrite Hb in Hbg. rewrite He in Hex. clear k0.
  generalize dependent (up w). intros u Hli Hex Hbg.
  unfold boot. rewrite exec_cons, step_settle by exact Hex.
  cbn [world parked finished]. rewrite Hbg. cbn [app wake_background].
  cbn [exited set_background set_connection waits_for resume].
  rewrite Hex, Nat.eqb_refl, Hok. cbn [wake_background wake exec foldl world].
  cbn [exited listening background connection trace emit set_background set_connection].
  rewrite Hex, Hli, <- app_assoc. by repeat split.
Qed.

Lemma long_running_connection_granted_witness :
  let l : Loop (option Response) :=
    exec (boot (up cold)) [Settle (next_promise cold) (Fulfilled 7%nat) atlas] in
  exited (world l) = None
  ∧ listening (world l) = true
  ∧ background (world l) = []
  ∧ connection (world l) = atlas
  ∧ trace (world l)
    = trace (up cold)
      ++ [EvConsole Out [Text ("MongoDB Atlas Connected: " ++ show (host atlas))];
          EvConsole Out [Text ("Database Name: " ++ show (Mongoose.name atlas))]].
Proof.
  apply (long_running_connection_granted cold 7 atlas); reflexivity.
Defined.

(** X13.  The long-running server only logs what the driver reports of
    the connection: a 'connected', 'error' or 'disconnected' event writes
    its one line to the console and leaves the rest of the process as it
    was (it keeps running, the cache and the pending call of [connectDB]
    are untouched); any other event of the connection writes nothing. *)
Theorem long_running_connection_events_only_log
    (w : World) (event : string) (arg : option Error) (c : Connection) :
  exited w = None →
  listeners w = [] →
  event ≠ "listening" →
  world (step (boot (A:=option Response) (up w)) (Emit event arg c))
  = if String.eqb event "connected"
    then emit (EvConsole Out [Text "Mongoose connected to MongoDB Atlas"])
              (set_connection c (up w))
    else if String.eqb event "error"
    then emit (EvConsole Err
                 [Text "Mongoose connection error:";
                  match arg with Some e => Thrown e | None => Text "undefined" end])
              (set_connection c (up w))
    else if String.eqb event "disconnected"
    then emit (EvConsole Out [Text "Mongoose disconnected from MongoDB Atlas"])
              (set_connection c (up w))
    else set_connection c (up w).
Proof.
  intros He Hl Hne.
  destruct (startup w) as (k0 & _ & _ & _ & _ & Hex & _ & _).
  destruct (startup_settles w Hl) as (k & _ & Hls & _).
  rewrite He in Hex. clear k0 k.
  generalize dependent (up w). intros u Hex Hls.
  rewrite step_emit by exact Hex.
  cbn [boot world]. rewrite Hls. cbn [fire exited set_connection]. rewrite Hex.
  rewrite !(String.eqb_sym _ event).
  destruct (String.eqb event "connected") eqn:E1.
  { apply String.eqb_eq in E1 as ->. cbn. by rewrite Hex. }
  destruct (String.eqb event "error") eqn:E2.
  { apply String.eqb_eq in E2 as ->. cbn. by rewrite Hex. }
  destruct (String.eqb event "disconnected") eqn:E3.
  { apply String.eqb_eq in E3 as ->. cbn. by rewrite Hex. }
  destruct (String.eqb event "listening") eqn:E4.
  { by apply String.eqb_eq in E4. }
  reflexivity.
Qed.

Lemma long_running_connection_events_only_log_witness :
  world (step (boot (A:=option Response) (up cold)) (Emit "error" (Some refused) lost))
  = if String.eqb "error" "connected"
    then emit (EvConsole Out [Text "Mongoose connected to MongoDB Atlas"])
              (set_connection lost (up cold))
    else if String.eqb "error" "error"
    then emit (EvConsole Err
                 [Text "Mongoose connection error:";
                  match Some refused with Some e => Thrown e | None => Text "undefined" end])
              (set_connection lost (up cold))
    else if String.eqb "error" "disconnected"
    then emit (EvConsole Out [Text "Mongoose disconnected from MongoDB Atlas"])
              (set_connection lost (up cold))
    else set_connection lost (up cold).
Proof.
  apply (long_running_connection_events_only_log cold "error" (Some refused) lost);
    [reflexivity|reflexivity|discriminate].
Defined.

(** ** The port *)

(** X14.  The server listens on [process.env.PORT || 5000]: on the
    number 5000 when PORT is unset and also when it is the empty string,
    on the string PORT holds otherwise; once the server is bound, the
    callback of [app.listen] writes that port and the URL of the health
    check to the console. *)
Theorem long_running_port_fallback (w : World) (c : Connection) :
  exited w = None →
  listeners w = [] →
  let port :=
    match env w !! "PORT" with
    | Some p => if String.eqb p "" then VNum 5000 else VStr p
    | None => VNum 5000
    end in
  last (trace (up w)) = Some (EvListen port)
  ∧ trace (world (step (boot (A:=option Response) (up w)) (Emit "listening" None c)))
    = trace (up w)
      ++ [EvConsole Out [Text ("Server is running on port " ++ show port)];
          EvConsole Out [Text ("Health check: http://localhost:" ++ show port
                               ++ "/api/health")]].
Proof.
  intros He Hl port.
  assert (Js.or (of_option (env w !! "PORT")) (VNum 5000) = port) as Hport.
  { subst port. destruct (env w !! "PORT") as [p|]; [|reflexivity].
    unfold Js.or. cbn. by destruct (String.eqb p ""). }
  destruct (startup w) as (k0 & _ & Htr & _ & _ & Hex & _ & _).
  destruct (startup_settles w Hl) as (k & _ & Hls & _).
  rewrite He in Hex. rewrite Hport in Htr, Hls. clear k0 k.
  split; [by rewrite Htr, last_app_cons|].
  generalize dependent (up w). intros u _ Hex Hls.
  rewrite step_emit by exact Hex.
  cbn [boot world]. rewrite Hls. cbn [fire exited set_connection String.eqb].
  rewrite Hex. cbn. by rewrite <- app_assoc.
Qed.

Lemma long_running_port_fallback_witness :
  let port :=
    match env cold !! "PORT" with
    | Some p => if String.eqb p "" then VNum 5000 else VStr p
    | None => VNum 5000
    end in
  last (trace (up cold)) = Some (EvListen port)
  ∧ trace (world (step (boot (A:=option Response) (up cold)) (Emit "listening" None atlas)))
    = trace (up cold)
      ++ [EvConsole Out [Text ("Server is running on port " ++ show port)];
          EvConsole Out [Text ("Health check: http://localhost:" ++ show port
                               ++ "/api/health")]].
Proof.
  apply (long_running_port_fallback cold atlas); reflexivity.
Defined.

(** ** Shutting down *)

(** X15.  The SIGINT handler keeps the process running until the close
    of the connection has settled and then always ends it: with exit code
    0, after confirming the close on the console, when the close
    succeeded, and with exit code 1, after writing the error to the
    console, when it failed. *)
Theorem sigint_exits_once_closed
    (w : World) (closing : Promise) (id : nat) (s : Settled) (c : Connection) :
  exited w = None →
  background w = [] →
  let waiting := exec (boot w) [Call id (LongRunning.on_sigint closing)] in
  let l := exec waiting [Settle closing s c] in
  exited (world waiting) = None
  ∧ trace (world waiting) = trace w
  ∧ map fst (parked waiting) = [id]
  ∧ match s with
    | Fulfilled _ =>
        exited (world l) = Some 0
        ∧ trace (world l)
          = trace w
            ++ [EvConsole Out
                  [Text "MongoDB Atlas connection closed through app termination"];
                EvExit 0]
    | Rejected e =>
        exited (world l) = Some 1
        ∧ trace (world l)
          = trace w
            ++ [EvConsole Err [Text "Error closing MongoDB connection:"; Thrown e];
                EvExit 1]
    end.
Proof.
  intros He Hb waiting l. subst l waiting. unfold boot.
  rewrite !exec_cons, step_call by exact He.
  cbn [world exec foldl]. unfold LongRunning.on_sigint at 1 2 3. cbn [run try_catch bind await land
    parked finished app world].
  split; [exact He|]. split; [reflexivity|]. split; [reflexivity|].
  unfold LongRunning.on_sigint. cbn [run try_catch bind await land parked finished app world].
  rewrite step_settle by exact He.
  cbn [world parked finished]. rewrite Hb.
  cbn [wake_background wake world exited set_background set_connection waits_for resume].
  rewrite He, Nat.eqb_refl.
  destruct s as [conn|e]; cbn; rewrite <- app_assoc; by split.
Qed.

Lemma sigint_exits_once_closed_witness :
  let waiting := exec (boot warm) [Call 1%nat (LongRunning.on_sigint 5%nat)] in
  let l := exec waiting [Settle 5%nat (Rejected refused) lost] in
  exited (world waiting) = None
  ∧ trace (world waiting) = trace warm
  ∧ map fst (parked waiting) = [1%nat]
  ∧ match Rejected refused with
    | Fulfilled _ =>
        exited (world l) = Some 0
        ∧ trace (world l)
          = trace warm
            ++ [EvConsole Out
                  [Text "MongoDB Atlas connection closed through app termination"];
                EvExit 0]
    | Rejected e =>
        exited (world l) = Some 1
        ∧ trace (world l)
          = trace warm
            ++ [EvConsole Err [Text "Error closing MongoDB connection:"; Thrown e];
                EvExit 1]
    end.
Proof.
  apply (sigint_exits_once_closed warm 5 1 (Rejected refused) lost); reflexivity.
Defined.

(** ** The long-running server over any history *)

Lemma handles_images_headers (X : Express) (req : Request) (C : bool → nat → Prop)
    (mount : string) (rest : list Layer) :
  handles X req C rest →
  handles X req C (UseAt mount LongRunning.images_headers :: rest).
Proof.
  intros H warm budget [err|] res HC; cbn; [by apply H|].
  destruct (mounted X mount req); cbn; by apply H.
Qed.

Lemma handles_long_running_tail (X : Express) (req : Request) (C : bool → nat → Prop) :
  handles X req C
    [Get "/api/health" LongRunning.health;
     UseError LongRunning.error_handler;
     Use LongRunning.not_found].
Proof.
  intros warm budget [err|] res HC; cbn.
  - intros v. by eexists.
  - destruct (routed X "GET" "/api/health" req); cbn; [intros c t|]; by eexists.
Qed.

(** The long-running application answers every request it is handed
    without calling the driver. *)
Lemma long_running_serve_safe (X : Express) (u : World) (req : Request) :
  safe false 0 answered unhandled (LongRunning.serve X u req).
Proof.
  unfold LongRunning.serve, LongRunning.app.
  assert (handles X req (λ _ _, True) (LongRunning.app X (env u !! "FRONTEND_URL"))) as H;
    [|by apply H].
  unfold LongRunning.app.
  repeat first [apply handles_use_ext | apply handles_images_headers
               | apply handles_mount_ext].
  apply handles_long_running_tail.
Qed.

(** Resuming calls that will not go to the driver again changes neither
    the listeners nor the background nor the number of calls of the
    driver, and the process keeps running. *)
Lemma wake_frame (p : Promise) (s : Settled)
    (ts : list (nat * Parked (option Response))) (l : Loop (option Response)) :
  exited (world l) = None →
  Forall replied (finished l) →
  Forall spent (parked l) →
  Forall spent ts →
  exited (world (wake p s ts l)) = None
  ∧ listeners (world (wake p s ts l)) = listeners (world l)
  ∧ background (world (wake p s ts l)) = background (world l)
  ∧ attempts (world (wake p s ts l)) = attempts (world l)
  ∧ Forall replied (finished (wake p s ts l))
  ∧ Forall spent (parked (wake p s ts l)).
Proof.
  revert l. induction ts as [|[id t] ts IH]; intros l He Hf Hp Hts.
  - cbn. by repeat split.
  - cbn [wake]. rewrite He. apply Forall_cons in Hts as [Ht Hts].
    destruct (Nat.eqb (waits_for t) p).
    + destruct (run_safe (resume t s) false 0 answered unhandled (world l) (Ht s))
        as (wm & n & Hex & Hli & Hbg & _ & _ & Hat & Hn & _ & _ & Hres); [done|].
      destruct (run (resume t s) (world l)) as [w' [o|e|t'|code]];
        cbn [fst snd] in *; try done.
      * destruct Hres as [r ->]. cbn [land].
        destruct (IH (MkLoop w' (parked l) (finished l ++ [(id, Done (Some r))])))
          as (? & ? & ? & ? & ? & ?); cbn [world parked finished]; auto.
        { congruence. }
        { apply Forall_app. split; [done|]. apply Forall_singleton. by exists r. }
        cbn [world] in *. repeat split; auto; try congruence. lia.
      * destruct Hres as (_ & _ & Hsp). cbn [land].
        destruct (IH (MkLoop w' (parked l ++ [(id, t')]) (finished l)))
          as (? & ? & ? & ? & ? & ?); cbn [world parked finished]; auto.
        { congruence. }
        { apply Forall_app. split; [done|]. by apply Forall_singleton. }
        cbn [world] in *. repeat split; auto; try congruence. lia.
    + destruct (IH (MkLoop (world l) (parked l ++ [(id, t)]) (finished l)))
        as (? & ? & ? & ? & ? & ?); cbn [world parked finished]; auto.
      { apply Forall_app. split; [done|]. by apply Forall_singleton. }
      cbn [world] in *. by repeat split.
Qed.

Lemma fire_logs (event : string) (arg : option Error)
    (ls : list (string * (option Error → Prog unit))) (w : World) :
  Forall (λ entry, logs_only entry.2) ls →
  exited (fire event arg ls w) = exited w
  ∧ listeners (fire event arg ls w) = listeners w
  ∧ background (fire event arg ls w) = background w
  ∧ attempts (fire event arg ls w) = attempts w.
Proof.
  revert w. induction ls as [|[name fn] ls IH]; intros w Hls; [done|].
  apply Forall_cons in Hls as [Hfn Hls]. cbn [fire].
  destruct (exited w) eqn:He; [done|].
  destruct (String.eqb name event).
  - cbn [snd] in Hfn. destruct (Hfn arg w) as (w' & -> & Hex & Hli & Hbg & Hat).
    destruct (IH w' Hls) as (? & ? & ? & ?). repeat split; congruence.
  - destruct (IH w Hls) as (? & ? & ? & ?). repeat split; congruence.
Qed.

Ltac settle_frame :=
  unfold serving, attempts in *;
  cbn [world exited listeners background trace set_background set_connection park
       set_clock] in *.

Lemma step_serving (X : Express) (u : World) (p0 : Promise) (a : nat)
    (ls : list (string * (option Error → Prog unit)))
    (l : Loop (option Response)) (i : Input (option Response)) :
  Forall (λ entry, logs_only entry.2) ls →
  serving p0 a ls l →
  long_running_input X u i →
  serving p0 a ls (step l i)
  ∨ (ended a (step l i) ∧ ∃ e c, i = Settle p0 (Rejected e) c).
Proof.
  intros Hls (He & Hl & Ha & Hf & Hp & Hb) Hi.
  destruct i as [id m|p s c|event arg c|t].
  - left. destruct Hi as [req ->]. rewrite step_call by exact He.
    destruct (run_safe (LongRunning.serve X u req) false 0 answered unhandled (world l)
                (long_running_serve_safe X u req))
      as (wm & n & Hex & Hli & Hbg & _ & _ & Hat & Hn & _ & _ & Hres); [done|].
    destruct (run (LongRunning.serve X u req) (world l)) as [w' [o|e|t'|code]];
      cbn [fst snd] in *; try done.
    + destruct Hres as [r ->]. cbn [land]. unfold serving. cbn [world parked finished].
      split; [congruence|]. split; [congruence|]. split; [lia|].
      split; [apply Forall_app; split; [done|]; apply Forall_singleton; by exists r|].
      split; [done|]. by rewrite Hbg.
    + destruct Hres as (_ & _ & Hsp). cbn [land]. unfold serving.
      cbn [world parked finished].
      split; [congruence|]. split; [congruence|]. split; [lia|]. split; [done|].
      split; [apply Forall_app; split; [done|]; by apply Forall_singleton|].
      by rewrite Hbg.
  - rewrite step_settle by exact He.
    destruct Hb as [Hb|(k & Hb & Hok & Hko)]; rewrite Hb.
    + left. cbn [wake_background].
      destruct (wake_frame p s (parked l)
                  (MkLoop (set_background [] (set_connection c (world l))) []
                          (finished l)))
        as (? & ? & ? & ? & ? & ?); cbn [world parked finished]; auto.
      settle_frame.
      repeat split; auto; try congruence; left; congruence.
    + cbn [wake_background exited set_background set_connection waits_for resume].
      rewrite He. destruct (Nat.eqb p0 p) eqn:Hp0.
      * apply Nat.eqb_eq in Hp0 as <-. destruct s as [conn|e].
        -- left.
           destruct (Hok conn (set_background [] (set_connection c (world l))))
             as (w' & -> & Hex & Hli & Hbg & Hat).
           cbn [wake_background].
           destruct (wake_frame p0 (Fulfilled conn) (parked l) (MkLoop w' [] (finished l)))
             as (? & ? & ? & ? & ? & ?); cbn [world parked finished]; auto.
           { settle_frame. congruence. }
           settle_frame.
           repeat split; auto; try congruence; left; congruence.
        -- right.
           destruct (Hko e (set_background [] (set_connection c (world l))))
             as (w' & -> & Hex & Hat).
           cbn [wake_background]. settle_frame.
           assert (wake p0 (Rejected e) (parked l) (MkLoop w' [] (finished l))
                   = MkLoop w' [] (finished l)) as ->.
           { destruct (parked l) as [|[id t] ts]; [done|]. cbn. by rewrite Hex. }
           split; [|by exists e, c]. unfold ended, attempts. cbn [world finished].
           repeat split; auto. congruence.
      * left. cbn [wake_background park background set_background set_connection app].
        destruct (wake_frame p s (parked l)
                    (MkLoop (park (MkParked p0 k)
                               (set_background [] (set_connection c (world l)))) []
                            (finished l)))
          as (? & ? & Hbg & ? & ? & ?); cbn [world parked finished]; auto.
        settle_frame.
        split; [done|]. split; [congruence|]. split; [congruence|].
        split; [done|]. split; [done|].
        right. exists k. split; [|by split]. by rewrite Hbg.
  - left. rewrite step_emit by exact He.
    destruct (fire_logs event arg (listeners (world l)) (set_connection c (world l)))
      as (Hex & Hli & Hbg & Hat); [by rewrite Hl|].
    unfold serving. cbn [world parked finished].
    cbn [exited listeners background set_connection] in *.
    change (attempts (set_connection c (world l))) with (attempts (world l)) in Hat.
    repeat split; auto; try congruence. by rewrite Hbg.
  - left. unfold step. rewrite He. unfold serving. cbn [world parked finished].
    cbn [exited listeners background set_clock].
    by repeat split.
Qed.

Lemma exec_serving (X : Express) (u : World) (p0 : Promise) (a : nat)
    (ls : list (string * (option Error → Prog unit)))
    (inputs : list (Input (option Response))) (l : Loop (option Response)) :
  Forall (λ entry, logs_only entry.2) ls →
  serving p0 a ls l →
  Forall (long_running_input X u) inputs →
  serving p0 a ls (exec l inputs)
  ∨ (ended a (exec l inputs) ∧ rejects p0 inputs).
Proof.
  intros Hls. revert l. induction inputs as [|i inputs IH]; intros l Hs Hi; [by left|].
  apply Forall_cons in Hi as [Hi His]. rewrite exec_cons.
  destruct (step_serving X u p0 a ls l i Hls Hs Hi) as [Hs'|[Hend (e & c & ->)]].
  - destruct (IH _ Hs' His) as [?|[? (e & c & Hin)]]; [by left|right].
    split; [done|]. exists e, c. apply elem_of_cons. by right.
  - right. rewrite (exec_exited _ _ 1) by apply Hend.
    split; [done|]. exists e, c. apply elem_of_cons. by left.
Qed.

(** The server right after the script is in the serving state. *)
Lemma up_serving (w : World) :
  exited w = None →
  background w = [] →
  listeners w = [] →
  ∃ ls, Forall (λ entry, logs_only entry.2) ls
        ∧ serving (next_promise w) (S (attempts w)) ls (boot (up w)).
Proof.
  intros He Hb Hl.
  destruct (startup w) as (k0 & _ & _ & _ & _ & Hex & _ & _).
  destruct (startup_settles w Hl) as (k & Hbg & Hls & _ & Hok & Hko).
  pose proof (attempts_up w) as Ha.
  rewrite He in Hex. rewrite Hb in Hbg. clear k0.
  generalize dependent (up w). intros u Hex Hbg Hls Ha.
  eexists. split; [|unfold serving, boot; cbn [world parked finished]].
  2: { split; [exact Hex|]. split; [exact Hls|]. split; [exact Ha|].
       split; [constructor|]. split; [constructor|].
       right. exists k. split; [exact Hbg|]. split.
       - intros conn w0. rewrite Hok. eexists. split; [reflexivity|].
         cbn [exited listeners background emit]. rewrite !attempts_emit_console.
         by repeat split.
       - intros e w0. rewrite Hko. eexists. split; [reflexivity|].
         cbn [exited emit set_exited]. split; [done|].
         unfold attempts, connects. cbn [trace emit set_exited].
         rewrite !filter_app, !length_app.
         change (filter is_connect [EvExit 1]) with (@nil Event).
         change (filter is_connect [EvConsole _ _]) with (@nil Event).
         cbn [length]. lia. }
  repeat (apply Forall_cons; split);
    [..|apply Forall_nil_2]; intros arg w0; cbn [snd run console_log console_error bind];
    eexists; (split; [reflexivity|]); cbn [exited listeners background emit];
    rewrite ?attempts_emit_console; by repeat split.
Qed.

Lemma busy_server_inputs : Forall (long_running_input plain (up cold)) busy_server.
Proof.
  unfold busy_server.
  repeat (apply Forall_cons; split; [first [exact I | by eexists]|]).
  apply Forall_nil_2.
Qed.


(** X16.  The long-running server calls [mongoose.connect] exactly once
    in its life, at startup: whatever requests come in, whatever the
    collaborators answer and whatever the driver reports afterwards (a
    lost connection included), no further call is made; and every request
    that has completed has been given a response. *)
Theorem long_running_connects_exactly_once
    (X : Express) (w : World) (inputs : list (Input (option Response))) :
  exited w = None →
  background w = [] →
  listeners w = [] →
  Forall (long_running_input X (up w)) inputs →
  attempts (world (exec (boot (up w)) inputs)) = S (attempts w)
  ∧ Forall replied (finished (exec (boot (up w)) inputs)).
Proof.
  intros He Hb Hl Hi.
  destruct (up_serving w He Hb Hl) as (ls & Hls & Hs).
  destruct (exec_serving X (up w) _ _ ls inputs _ Hls Hs Hi)
    as [(_ & _ & Ha & Hf & _)|[(_ & Ha & Hf) _]]; by split.
Qed.

Lemma long_running_connects_exactly_once_witness :
  attempts (world (exec (boot (up cold)) busy_server)) = S (attempts cold)
  ∧ Forall replied (finished (exec (boot (up cold)) busy_server)).
Proof.
  apply (long_running_connects_exactly_once plain cold busy_server).
  - reflexivity.
  - reflexivity.
  - reflexivity.
  - exact busy_server_inputs.
Defined.


